(** * pdf_to_csv/app.py: the PDF -> OCR -> CSV endpoint and its retry wrapper

    A shallow embedding of [src/pdf_to_csv/app.py].  Python strings are
    [string]s whose characters are the code points below 256; Python ints
    are [Z]; durations handed to [time.sleep] are exact rationals ([Q]), so
    the rounding and the range of floats, and the longest sleep the platform
    accepts, are outside the model.  The outside world (the HTTP
    server answering [requests.post], the random generator, the PDF
    rasteriser, the PNG and base64 encoders, the environment variables) is
    a [world] record; the calls made to it are counted and logged in a
    [state] that every effectful function threads.  The [print] calls of
    the source only write to the console and are left out. *)

From Stdlib Require Import ZArith QArith Lqa String Ascii List Lia DecimalString.
From Stdlib.Strings Require Import Byte.
From stdpp Require Import base option list strings gmap.
From Equations.Prop Require Import Equations Logic.

Local Open Scope string_scope.
Local Open Scope list_scope.

(** ** Python built-ins used by the source *)

Module Py.

(** [str.isspace] on one character (code points below 256). *)
Definition isspace (c : ascii) : bool :=
  let n := N_of_ascii c in
  ((9 <=? n) && (n <=? 13) || (28 <=? n) && (n <=? 32)
   || (n =? 133) || (n =? 160))%N.

(** The whitespace of C's [Py_ISSPACE], used by the integer parser. *)
Definition c_isspace (c : ascii) : bool :=
  let n := N_of_ascii c in
  ((9 <=? n) && (n <=? 13) || (n =? 32))%N.

Definition lower_char (c : ascii) : ascii :=
  let n := N_of_ascii c in
  if ((65 <=? n) && (n <=? 90)
      || (192 <=? n) && (n <=? 222) && negb (n =? 215))%N
  then ascii_of_N (n + 32) else c.

(** [s.lower()] *)
Fixpoint lower (s : string) : string :=
  match s with
  | "" => ""
  | String c s' => String (lower_char c) (lower s')
  end.

(** [s.startswith(p)] *)
Fixpoint startswith (s p : string) {struct p} : bool :=
  match p, s with
  | "", _ => true
  | String _ _, "" => false
  | String a p', String b s' => if ascii_dec a b then startswith s' p' else false
  end.

(** [s[n:]] for [n >= 0] *)
Fixpoint slice_from (n : nat) (s : string) : string :=
  match n, s with
  | O, _ => s
  | S _, "" => ""
  | S n', String _ s' => slice_from n' s'
  end.

(** [s[:n]] for [n >= 0] *)
Fixpoint slice_to (n : nat) (s : string) : string :=
  match n, s with
  | O, _ => ""
  | S _, "" => ""
  | S n', String c s' => String c (slice_to n' s')
  end.

(** [s.endswith(p)] *)
Definition endswith (s p : string) : bool :=
  (String.length p <=? String.length s)%nat
  && bool_decide (slice_from (String.length s - String.length p) s = p).

(** [s.find(sub)], with [None] for Python's -1. *)
Fixpoint find (s sub : string) : option nat :=
  if startswith s sub then Some O
  else match s with
       | "" => None
       | String _ s' => S <$> find s' sub
       end.

(** [sub in s] *)
Definition contains (s sub : string) : bool :=
  match find s sub with Some _ => true | None => false end.

(** [s.split(sep)] for a non-empty separator: the pieces between the
    occurrences of [sep] found from left to right, not overlapping.
    (Python raises on an empty separator; the source never passes one,
    and the model then returns the string whole.) *)
Equations? split (s sep : string) : list string by wf (String.length s) lt :=
  split s sep with inspect (find s sep) := {
    | exist _ (Some i) Hfind with sep := {
        | "" => [s]
        | String c sep' =>
            slice_to i s :: split (slice_from (i + String.length (String c sep')) s)
                                  (String c sep') }
    | exist _ None _ => [s] }.
Proof.
  clear split.
  assert (Hlen : forall n t, (String.length (slice_from n t) <= String.length t - n)%nat).
  { induction n as [|n IH]; intros [|a t]; simpl; try lia. apply IH. }
  assert (Hpos : forall t p j, find t p = Some j ->
                               (j + String.length p <= String.length t)%nat).
  { induction t as [|a t IH]; intros p j.
    - destruct p; simpl; [intros [= <-]; simpl; lia | discriminate].
    - cbn [find]. destruct (startswith (String a t) p) eqn:Hs.
      + intros [= <-]. clear IH. revert Hs. generalize (String a t) as u.
        induction p as [|b p IHp]; intros [|d u]; simpl; try lia; try discriminate.
        destruct (ascii_dec b d); [|discriminate]. intros Hs. specialize (IHp _ Hs). lia.
      + destruct (find t p) as [k|] eqn:Hk; [|discriminate].
        intros [= <-]. specialize (IH _ _ Hk). simpl. lia. }
  specialize (Hlen (i + String.length (String c sep')) s)%nat.
  specialize (Hpos _ _ _ Hfind). simpl in *. lia.
Qed.

Fixpoint lstrip (s : string) : string :=
  match s with
  | "" => ""
  | String c s' => if isspace c then lstrip s' else s
  end.

(** [s.rstrip()]: a trailing run of whitespace is dropped. *)
Fixpoint rstrip (s : string) : string :=
  match s with
  | "" => ""
  | String c s' =>
      match rstrip s' with
      | "" => if isspace c then "" else String c ""
      | t => String c t
      end
  end.

(** [s.strip()] *)
Definition strip (s : string) : string := rstrip (lstrip s).

(** [sep.join(l)] *)
Fixpoint join (sep : string) (l : list string) : string :=
  match l with
  | [] => ""
  | [x] => x
  | x :: l' => x +:+ sep +:+ join sep l'
  end.

(** [str(n)] for an int *)
Definition str_of_int (z : Z) : string := NilZero.string_of_int (Z.to_int z).

End Py.


(** ** [int(s)] on a string, as the header parser uses it *)

Module PyInt.

Definition digit_val (c : ascii) : option Z :=
  let n := N_of_ascii c in
  if ((48 <=? n) && (n <=? 57))%N then Some (Z.of_N (n - 48)) else None.

Fixpoint skip_space (s : string) : string :=
  match s with
  | "" => ""
  | String c s' => if Py.c_isspace c then skip_space s' else s
  end.

Fixpoint all_space (s : string) : bool :=
  match s with
  | "" => true
  | String c s' => Py.c_isspace c && all_space s'
  end.

Fixpoint is_ascii (s : string) : bool :=
  match s with
  | "" => true
  | String c s' => (N_of_ascii c <? 128)%N && is_ascii s'
  end.

(** A string that is not pure ASCII has its Unicode spaces turned into
    blanks and its other non-ASCII characters into ['?'] first. *)
Fixpoint to_ascii_space (s : string) : string :=
  match s with
  | "" => ""
  | String c s' =>
      String (if Py.isspace c then " "%char
              else if (N_of_ascii c <? 128)%N then c else "?"%char)
             (to_ascii_space s')
  end.

(** Digits, with single underscores allowed between them: the value read,
    the number of digits, and what follows. *)
Fixpoint scan_digits (s : string) (prev_underscore : bool) (acc : Z) (n : nat)
  : option (Z * nat * string) :=
  match s with
  | "" => if prev_underscore then None else Some (acc, n, "")
  | String c s' =>
      if ascii_dec c "_"%char then
        if prev_underscore then None else scan_digits s' true acc n
      else match digit_val c with
           | Some d => scan_digits s' false (10 * acc + d)%Z (S n)
           | None => if prev_underscore then None else Some (acc, n, s)
           end
  end.

(** The interpreter's default limit on the digits of a decimal literal. *)
Definition max_str_digits : nat := 4300.

Definition parse_long (s : string) : option Z :=
  let s1 := skip_space s in
  let '(neg, s2) :=
    match s1 with
    | String c t => if ascii_dec c "-"%char then (true, t)
                    else if ascii_dec c "+"%char then (false, t)
                    else (false, s1)
    | "" => (false, s1)
    end in
  if Py.startswith s2 "_" then None
  else match scan_digits s2 false 0%Z O with
       | Some (v, n, rest) =>
           if (n =? 0)%nat || (max_str_digits <? n)%nat then None
           else if all_space rest then Some (if neg then (- v)%Z else v)
           else None
       | None => None
       end.

(** [int(s)]: [None] stands for [ValueError]. *)
Definition int_of_str (s : string) : option Z :=
  parse_long (if is_ascii s then s else to_ascii_space s).

End PyInt.


(** ** Exceptions *)

Inductive exn_class :=
| HTTPError           (* requests.exceptions.HTTPError, from raise_for_status *)
| ConnectionError     (* requests.exceptions.ConnectionError *)
| Timeout             (* requests.exceptions.Timeout *)
| RequestException    (* any other requests.exceptions.RequestException *)
| JSONDecodeError     (* raised by response.json() *)
| ValueError
| KeyError
| IndexError
| PDFError            (* what pdf2image raises on bytes it cannot read *)
| PlainException      (* Exception(...) itself *)
| OtherException.     (* any other subclass of Exception *)

(** An exception object: its class and [str(e)]. *)
Record exn := Exn { exn_class_of : exn_class; exn_str : string }.

(** [isinstance(e, requests.exceptions.RequestException)] *)
Definition is_RequestException (e : exn) : bool :=
  match exn_class_of e with
  | HTTPError | ConnectionError | Timeout | RequestException => true
  | _ => false
  end.

Inductive result (A : Type) :=
| Ok (a : A)
| Raise (e : exn).
Arguments Ok {A} a.
Arguments Raise {A} e.


(** ** HTTP data *)

(** The parsed JSON body of a chat completion, as far as the source looks
    into it: [result['choices'][0]['message']['content']].  A key that is
    absent is [None]. *)
Record chat_reply := { reply_content : option string }.
Record chat_choice := { choice_message : option chat_reply }.
Record chat_completion := { completion_choices : option (list chat_choice) }.

(** [response.headers] is a case-insensitive dict: it stores each header
    under its lower-cased name, with the name as sent and the value. *)
Record response := {
  status_code : Z;
  reason : string;
  response_url : string;
  headers : gmap string (string * string);
  json_body : result chat_completion   (* what response.json() returns or raises *)
}.

(** [key in response.headers] *)
Definition headers_contains (h : gmap string (string * string)) (key : string) : bool :=
  match h !! Py.lower key with Some _ => true | None => false end.

(** [response.headers[key]] *)
Definition headers_getitem (h : gmap string (string * string)) (key : string)
  : result string :=
  match h !! Py.lower key with
  | Some (_, v) => Ok v
  | None => Raise (Exn KeyError ("'" +:+ key +:+ "'"))
  end.

(** [response.raise_for_status()] of the requests library: a status in
    400..599 raises [HTTPError], any other status returns. *)
Definition raise_for_status (r : response) : result unit :=
  if ((400 <=? status_code r) && (status_code r <? 500))%Z then
    Raise (Exn HTTPError (Py.str_of_int (status_code r) +:+ " Client Error: "
                          +:+ reason r +:+ " for url: " +:+ response_url r))
  else if ((500 <=? status_code r) && (status_code r <? 600))%Z then
    Raise (Exn HTTPError (Py.str_of_int (status_code r) +:+ " Server Error: "
                          +:+ reason r +:+ " for url: " +:+ response_url r))
  else Ok tt.

(** The JSON payloads the source builds. *)
Inductive content_part :=
| TextPart (text : string)          (* {'type': 'text', 'text': ...} *)
| ImageUrlPart (url : string).      (* {'type': 'image_url', 'image_url': {'url': ...}} *)

Inductive message_content :=
| ContentText (s : string)
| ContentParts (parts : list content_part).

Record chat_message := { role : string; content : message_content }.
Record payload := { model : string; messages : list chat_message }.

(** What one [requests.post] does: it returns a response or raises. *)
Inductive post_outcome :=
| Responds (r : response)
| Fails (e : exn).

(** A page image of the rasteriser. *)
Inductive image := Raster (id : nat).


(** ** The world and the state *)

Record world := {
  (** the outcome of the [n]-th [requests.post] of the run (from 0) *)
  requests_post : nat -> string -> list (string * string) -> payload -> post_outcome;
  (** the [n]-th value of [random.random()], in [0, 1) *)
  random_random : nat -> Q;
  (** [pdf2image.convert_from_bytes(pdf_bytes, dpi=...)] *)
  convert_from_bytes : list byte -> Z -> result (list image);
  (** [image.save(buffered, format="PNG")] then [buffered.getvalue()] *)
  png_bytes : image -> list byte;
  (** [base64.b64encode(b).decode()] *)
  b64encode : list byte -> string;
  (** [os.getenv('OPENROUTER_API_KEY')] *)
  OPENROUTER_API_KEY : option string;
  VISION_MODEL : string;
  CHAT_MODEL : string
}.

Inductive event :=
| EvPost (url : string) (hdrs : list (string * string)) (json_data : payload)
| EvSleep (seconds : Q)
| EvRasterize (pdf_bytes : list byte) (dpi : Z).

Record state := {
  posts_made : nat;       (* calls of requests.post so far *)
  randoms_drawn : nat;    (* calls of random.random() so far *)
  log : list event        (* the calls made, oldest first *)
}.

Definition initial_state : state :=
  {| posts_made := 0; randoms_drawn := 0; log := [] |}.

(** A computation that may raise and that threads the state. *)
Definition M (A : Type) : Type := state -> result A * state.

Definition ret {A} (a : A) : M A := fun st => (Ok a, st).
Definition raise {A} (e : exn) : M A := fun st => (Raise e, st).
Definition bind {A B} (m : M A) (k : A -> M B) : M B :=
  fun st => match m st with
            | (Ok a, st') => k a st'
            | (Raise e, st') => (Raise e, st')
            end.
Definition lift {A} (r : result A) : M A := fun st => (r, st).

(** [try: m except <handles> as e: handler e] *)
Definition try_except {A} (m : M A) (handles : exn -> bool) (handler : exn -> M A) : M A :=
  fun st => match m st with
            | (Ok a, st') => (Ok a, st')
            | (Raise e, st') => if handles e then handler e st' else (Raise e, st')
            end.

Notation "'let!' x ':=' m 'in' k" := (bind m (fun x => k))
  (at level 10, x name, m at level 100, k at level 200).
Notation "m ';;' k" := (bind m (fun _ => k))
  (at level 100, k at level 200, right associativity).

(** The three ways the state moves. *)
Definition log_event (ev : event) (st : state) : state :=
  {| posts_made := posts_made st;
     randoms_drawn := randoms_drawn st;
     log := log st ++ [ev] |}.

Definition count_post (st : state) : state :=
  {| posts_made := S (posts_made st);
     randoms_drawn := randoms_drawn st;
     log := log st |}.

Definition count_random (st : state) : state :=
  {| posts_made := posts_made st;
     randoms_drawn := S (randoms_drawn st);
     log := log st |}.

(** [requests.post(url, headers=headers, json=json_data)] *)
Definition do_post (w : world) (url : string) (hdrs : list (string * string))
    (json_data : payload) : M response :=
  fun st =>
    let st' := log_event (EvPost url hdrs json_data) (count_post st) in
    match requests_post w (posts_made st) url hdrs json_data with
    | Responds r => (Ok r, st')
    | Fails e => (Raise e, st')
    end.

(** [random.uniform(a, b)] is [a + (b - a) * random.random()]. *)
Definition random_uniform (w : world) (a b : Q) : M Q :=
  fun st =>
    (Ok (a + (b - a) * random_random w (randoms_drawn st))%Q, count_random st).

(** [time.sleep(secs)] raises [ValueError] on a negative duration. *)
Definition time_sleep (secs : Q) : M unit :=
  fun st =>
    if Qle_bool 0 secs then (Ok tt, log_event (EvSleep secs) st)
    else (Raise (Exn ValueError "sleep length must be non-negative"), st).


(** ** The retry wrapper: [make_api_request_with_retry] *)

(** How the body of one iteration of the [for] loop ends when it does not
    raise: [continue] (or falling out of the [except] block), or
    [return response]. *)
Inductive flow :=
| Continue
| Return (r : response).

(** Lines 35-40: the wait of a 429 response, 5 seconds unless the
    [Retry-After] header is there and [int] accepts it. *)
Definition retry_after_wait (r : response) : result Z :=
  if headers_contains (headers r) "Retry-After" then
    match headers_getitem (headers r) "Retry-After" with
    | Ok v => match PyInt.int_of_str v with
              | Some n => Ok n
              | None => Ok 5%Z          (* except ValueError: pass *)
              end
    | Raise e => Raise e
    end
  else Ok 5%Z.

(** Lines 29-57: the [try] statement of one iteration. *)
Definition attempt_body (w : world) (url : string) (hdrs : list (string * string))
    (json_data : payload) (max_retries attempt : Z) : M flow :=
  try_except
    (let! response := do_post w url hdrs json_data in
     if (status_code response =? 429)%Z then
       let! wait_time := lift (retry_after_wait response) in
       let! jitter := random_uniform w (1 # 2) (3 # 2) in
       let sleep_time := (inject_Z (wait_time * 2 ^ attempt) + jitter)%Q in
       time_sleep sleep_time ;;
       ret Continue
     else
       lift (raise_for_status response) ;;
       ret (Return response))
    is_RequestException
    (fun e =>
       if (attempt =? max_retries - 1)%Z then raise e
       else
         let! jitter := random_uniform w (1 # 2) (3 # 2) in
         time_sleep (inject_Z (2 ^ attempt) + jitter)%Q ;;
         ret Continue).

(** [range(n)] *)
Definition range (n : Z) : list Z := map Z.of_nat (seq 0 (Z.to_nat n)).

(** Lines 28-59: the loop over the attempts still to make, and the
    [raise] that follows it. *)
Fixpoint for_attempts (w : world) (url : string) (hdrs : list (string * string))
    (json_data : payload) (max_retries : Z) (attempts : list Z) : M response :=
  match attempts with
  | [] => raise (Exn PlainException "Max retries reached")
  | attempt :: rest =>
      let! f := attempt_body w url hdrs json_data max_retries attempt in
      match f with
      | Return r => ret r
      | Continue => for_attempts w url hdrs json_data max_retries rest
      end
  end.

Definition make_api_request_with_retry (w : world) (url : string)
    (hdrs : list (string * string)) (json_data : payload) (max_retries : Z)
  : M response :=
  for_attempts w url hdrs json_data max_retries (range max_retries).

(** The default of the [max_retries] argument; no caller passes another. *)
Definition default_max_retries : Z := 5.


(** ** The pipeline stages *)

Definition OPENROUTER_API_URL : string :=
  "https://openrouter.ai/api/v1/chat/completions".

Definition LF : string := String "010"%char "".

(** [f'{x}'] of a value that is a string or [None] *)
Definition format_optional (x : option string) : string :=
  match x with Some s => s | None => "None" end.

Definition api_headers (w : world) : list (string * string) :=
  [ ("Authorization", "Bearer " +:+ format_optional (OPENROUTER_API_KEY w));
    ("Content-Type", "application/json");
    ("HTTP-Referer", "http://localhost:5000");
    ("X-Title", "PDF OCR Service") ].

Definition pdf_to_images (w : world) (pdf_bytes : list byte) : M (list image) :=
  fun st =>
    (convert_from_bytes w pdf_bytes 100, log_event (EvRasterize pdf_bytes 100) st).

Definition image_to_base64 (w : world) (img : image) : string :=
  b64encode w (png_bytes w img).

(** [response.json()] followed by
    [result['choices'][0]['message']['content']]. *)
Definition completion_text (r : response) : result string :=
  match json_body r with
  | Raise e => Raise e
  | Ok res =>
      match completion_choices res with
      | None => Raise (Exn KeyError "'choices'")
      | Some choices =>
          match choices !! 0%nat with
          | None => Raise (Exn IndexError "list index out of range")
          | Some choice =>
              match choice_message choice with
              | None => Raise (Exn KeyError "'message'")
              | Some msg =>
                  match reply_content msg with
                  | None => Raise (Exn KeyError "'content'")
                  | Some text => Ok text
                  end
              end
          end
      end
  end.

Definition vision_payload (w : world) (base64_image : string) : payload :=
  {| model := VISION_MODEL w;
     messages :=
       [ {| role := "user";
            content := ContentParts
              [ TextPart "Extract all text from this image. Return only the text content, nothing else.";
                ImageUrlPart ("data:image/png;base64," +:+ base64_image) ] |} ] |}.

(** The block appended for the page at index [idx] (from 0). *)
Definition page_block (idx : nat) (text : string) : string :=
  "--- Page " +:+ Py.str_of_int (Z.of_nat idx + 1) +:+ " ---" +:+ LF +:+ text.

(** Lines 87-115: the loop over [enumerate(images)], from index [idx] on,
    appending to [all_text]. *)
Fixpoint ocr_pages (w : world) (hdrs : list (string * string)) (idx : nat)
    (images : list image) (all_text : list string) : M (list string) :=
  match images with
  | [] => ret all_text
  | img :: rest =>
      let base64_image := image_to_base64 w img in
      let! response :=
        make_api_request_with_retry w OPENROUTER_API_URL hdrs
          (vision_payload w base64_image) default_max_retries in
      let! text := lift (completion_text response) in
      ocr_pages w hdrs (S idx) rest (all_text ++ [page_block idx text])
  end.

Definition ocr_with_openrouter (w : world) (images : list image) : M string :=
  let! all_text := ocr_pages w (api_headers w) 0 images [] in
  ret (Py.join (LF +:+ LF) all_text).

Definition chat_payload (w : world) (text : string) : payload :=
  {| model := CHAT_MODEL w;
     messages :=
       [ {| role := "system";
            content := ContentText "You are a helpful assistant that converts text data into CSV format. Analyze the text and identify tabular data, lists, or structured information, then output it as properly formatted CSV. Return ONLY the CSV data with no markdown formatting, no code blocks, no explanations." |};
         {| role := "user";
            content := ContentText ("Convert the following text into a useful CSV format. Identify patterns and structure the data logically:" +:+ LF +:+ LF +:+ text) |} ] |}.

Definition FENCE : string := "```".

(** Lines 148-155: the clean-up of the chat model's answer. *)
Definition clean_csv_content (csv_content : string) : result string :=
  if Py.contains csv_content FENCE then
    match Py.split csv_content FENCE !! 1%nat with
    | None => Raise (Exn IndexError "list index out of range")
    | Some inner =>
        let inner := if Py.startswith inner "csv" then Py.slice_from 3 inner
                     else inner in
        Ok (Py.strip inner)
    end
  else Ok csv_content.

Definition text_to_csv (w : world) (text : string) : M string :=
  let! response :=
    make_api_request_with_retry w OPENROUTER_API_URL (api_headers w)
      (chat_payload w text) default_max_retries in
  let! csv_content := lift (completion_text response) in
  lift (clean_csv_content csv_content).


(** ** The endpoint: [POST /pdf-to-csv] *)

(** An uploaded file: werkzeug's [FileStorage]. *)
Record FileStorage := { filename : string; file_bytes : list byte }.

Record flask_request := { files : gmap string FileStorage }.

Inductive http_response :=
| Jsonify (body : list (string * string)) (status : Z)
| SendFile (data : list byte) (mimetype : string) (as_attachment : bool)
           (download_name : string).

Definition response_status (r : http_response) : Z :=
  match r with
  | Jsonify _ status => status
  | SendFile _ _ _ _ => 200
  end.

(** [s.encode('utf-8')] for code points below 256. *)
Fixpoint utf8_encode (s : string) : list byte :=
  match s with
  | "" => []
  | String c s' =>
      let n := N_of_ascii c in
      if (n <? 128)%N then byte_of_ascii c :: utf8_encode s'
      else byte_of_ascii (ascii_of_N (192 + n / 64))
           :: byte_of_ascii (ascii_of_N (128 + n mod 64)) :: utf8_encode s'
  end.

(** Lines 167-200: the body of the [try]. *)
Definition pdf_to_csv_try (w : world) (request : flask_request) : M http_response :=
  match files request !! "file" with
  | None => ret (Jsonify [("error", "No file provided")] 400)
  | Some file =>
      if bool_decide (filename file = "") then
        ret (Jsonify [("error", "Empty filename")] 400)
      else if negb (Py.endswith (Py.lower (filename file)) ".pdf") then
        ret (Jsonify [("error", "File must be a PDF")] 400)
      else
        let pdf_bytes := file_bytes file in
        let! images := pdf_to_images w pdf_bytes in
        let! extracted_text := ocr_with_openrouter w images in
        let! csv_content := text_to_csv w extracted_text in
        let csv_bytes := utf8_encode csv_content in
        ret (SendFile csv_bytes "text/csv" true "output.csv")
  end.

(** Lines 166-203: [except Exception as e] turns any exception into a 500. *)
Definition pdf_to_csv (w : world) (request : flask_request) (st : state)
  : http_response * state :=
  match pdf_to_csv_try w request st with
  | (Ok r, st') => (r, st')
  | (Raise e, st') => (Jsonify [("error", exn_str e)] 500, st')
  end.


(** ** Vocabulary of the statements *)

(** The value [random.uniform(0.5, 1.5)] returns when called in [st]. *)
Definition jitter_of (w : world) (st : state) : Q :=
  ((1 # 2) + ((3 # 2) - (1 # 2)) * random_random w (randoms_drawn st))%Q.

(** [random.random()] only returns values of [0, 1). *)
Definition random_in_range (w : world) : Prop :=
  forall n, (0 <= random_random w n)%Q /\ (random_random w n < 1)%Q.

(** The wait hint of a 429 response: the [Retry-After] header read as an
    integer, 5 when the header is absent or is not an integer literal. *)
Definition retry_after_hint (r : response) : Z :=
  match headers r !! "retry-after" with
  | Some (_, v) => default 5%Z (PyInt.int_of_str v)
  | None => 5%Z
  end.

(** What an attempt comes to, from the outcome of its POST. *)
Inductive attempt_kind :=
| Succeeds (r : response)      (* returned to the caller *)
| RateLimited (r : response)   (* status 429 *)
| Errors (e : exn)             (* a RequestException: network failure or HTTP error status *)
| Escapes (e : exn).           (* an exception the handler does not catch *)

Definition classify (o : post_outcome) : attempt_kind :=
  match o with
  | Fails e => if is_RequestException e then Errors e else Escapes e
  | Responds r =>
      if (status_code r =? 429)%Z then RateLimited r
      else match raise_for_status r with
           | Raise e => Errors e
           | Ok _ => Succeeds r
           end
  end.

Definition is_post (ev : event) : bool :=
  match ev with EvPost _ _ _ => true | _ => false end.

(** From [st] to [st']: [n] more POSTs were made, and the log grew by
    events of which [n] are POSTs. *)
Definition posted (n : nat) (st st' : state) : Prop :=
  posts_made st' = (posts_made st + n)%nat
  /\ exists evs, log st' = log st ++ evs
                 /\ length (List.filter is_post evs) = n.

(** The log only grows. *)
Definition log_grows (st st' : state) : Prop :=
  exists evs, log st' = log st ++ evs.





(** The suffix [.pdf] in every mix of letter case. *)
Definition pdf_suffixes : list string :=
  [".pdf"; ".pdF"; ".pDf"; ".pDF"; ".Pdf"; ".PdF"; ".PDf"; ".PDF"].

(** The requests that intake turns down: no [file] field, an empty
    filename, or a filename that, lower-cased, does not end in [.pdf]. *)
Definition intake_rejects (request : flask_request) : Prop :=
  match files request !! "file" with
  | None => True
  | Some file =>
      filename file = "" \/ Py.endswith (Py.lower (filename file)) ".pdf" = false
  end.


(** A computation that only adds to the log. *)
Definition keeps_log {A} (m : M A) : Prop :=
  forall st, log_grows st (snd (m st)).

(** The vision stage as the specification words it: the text of one page
    is what the vision model answers to the request that carries that
    page; the texts of the pages are taken in page order; each is put under
    its page header and the blocks are joined by a blank line. *)
Definition page_text (w : world) (img : image) : M string :=
  let! response :=
    make_api_request_with_retry w OPENROUTER_API_URL (api_headers w)
      (vision_payload w (image_to_base64 w img)) default_max_retries in
  lift (completion_text response).

Fixpoint page_texts (w : world) (images : list image) : M (list string) :=
  match images with
  | [] => ret []
  | img :: rest =>
      let! text := page_text w img in
      let! texts := page_texts w rest in
      ret (text :: texts)
  end.

Definition extracted_text_spec (w : world) (images : list image) : M string :=
  let! texts := page_texts w images in
  ret (Py.join (LF +:+ LF) (imap page_block texts)).


(** ** Sample worlds and requests *)

Definition sample_response (status : Z) (hdrs : gmap string (string * string))
    (text : string) : response :=
  {| status_code := status;
     reason := "";
     response_url := OPENROUTER_API_URL;
     headers := hdrs;
     json_body :=
       Ok {| completion_choices :=
               Some [ {| choice_message := Some {| reply_content := Some text |} |} ] |} |}.

(** A world whose [n]-th POST is answered by [answers n], whose random
    generator always returns 0, and whose rasteriser refuses empty input
    and otherwise finds two pages. *)
Definition sample_world (answers : nat -> post_outcome) : world :=
  {| requests_post := fun n _ _ _ => answers n;
     random_random := fun _ => 0%Q;
     convert_from_bytes := fun pdf_bytes _ =>
       match pdf_bytes with
       | [] => Raise (Exn PDFError "Unable to get page count.")
       | _ => Ok [Raster 0; Raster 1]
       end;
     png_bytes := fun _ => [];
     b64encode := fun _ => "";
     OPENROUTER_API_KEY := Some "key";
     VISION_MODEL := "google/gemini-flash-1.5-8b";
     CHAT_MODEL := "google/gemini-flash-1.5-8b" |}.

Definition always_429 : world :=
  sample_world (fun _ => Responds (sample_response 429 ∅ "")).

Definition error_500_then_ok : world :=
  sample_world (fun n => match n with
                         | O => Responds (sample_response 500 ∅ "")
                         | S _ => Responds (sample_response 200 ∅ "a,b")
                         end).

Definition always_ok (text : string) : world :=
  sample_world (fun _ => Responds (sample_response 200 ∅ text)).

Definition sample_payload : payload := {| model := "m"; messages := [] |}.

Definition upload (name : string) (data : list byte) : flask_request :=
  {| files := {[ "file" := {| filename := name; file_bytes := data |} ]} |}.


(** A world whose rasteriser finds no page, and whose server answers every
    POST with an empty completion. *)
Definition no_pages_world : world :=
  {| requests_post := fun _ _ _ _ => Responds (sample_response 200 ∅ "");
     random_random := fun _ => 0%Q;
     convert_from_bytes := fun _ _ => Ok [];
     png_bytes := fun _ => [];
     b64encode := fun _ => "";
     OPENROUTER_API_KEY := Some "key";
     VISION_MODEL := "google/gemini-flash-1.5-8b";
     CHAT_MODEL := "google/gemini-flash-1.5-8b" |}.


(** ** The health endpoint and the start-up *)

(** Lines 206-209: [GET /health]. *)
Definition health : http_response :=
  Jsonify [("status", "healthy"); ("service", "PDF OCR to CSV")] 200.

(** What running the module as a script comes to. *)
Inductive startup :=
| Exits (code : Z) (printed : list string)
| Runs (debug : bool) (host : string) (port : Z).

(** Lines 212-218: [not OPENROUTER_API_KEY] holds of [None] and of the
    empty string. *)
Definition main (w : world) : startup :=
  match OPENROUTER_API_KEY w with
  | None | Some "" =>
      Exits 1 [ "ERROR: OPENROUTER_API_KEY not set in environment variables!";
                "Please create a .env file with your OpenRouter API key." ]
  | Some _ => Runs true "0.0.0.0" 5000
  end.


(** ** Further vocabulary *)

(** The seconds slept in a run of events. *)
Fixpoint total_sleep (evs : list event) : Q :=
  match evs with
  | [] => 0
  | EvSleep secs :: rest => secs + total_sleep rest
  | _ :: rest => total_sleep rest
  end.


(** Events in the order POST, sleep, POST, sleep, ..., every POST made with
    [url], [hdrs] and [json_data]. *)
Fixpoint backoff_shape (url : string) (hdrs : list (string * string))
    (json_data : payload) (evs : list event) : Prop :=
  match evs with
  | [] => True
  | ev :: rest =>
      ev = EvPost url hdrs json_data
      /\ match rest with
         | [] => True
         | ev' :: rest' =>
             (exists secs, ev' = EvSleep secs)
             /\ backoff_shape url hdrs json_data rest'
         end
  end.

(** An event of the outbound calls: a sleep, or a POST to the API's URL
    with the API's headers. *)
Definition api_event (w : world) (ev : event) : Prop :=
  match ev with
  | EvPost url hdrs _ => url = OPENROUTER_API_URL /\ hdrs = api_headers w
  | EvSleep _ => True
  | EvRasterize _ _ => False
  end.

(** A computation that adds to the log only events that satisfy [P]. *)
Definition adds_only {A} (P : event -> Prop) (m : M A) : Prop :=
  forall st, exists evs, log (snd (m st)) = log st ++ evs /\ Forall P evs.

(** A computation that makes at most [hi] POSTs, and at least [lo] when it
    does not raise. *)
Definition posts_between {A} (lo hi : nat) (m : M A) : Prop :=
  forall st,
    (posts_made st <= posts_made (snd (m st)) <= posts_made st + hi)%nat
    /\ match fst (m st) with
       | Ok _ => (posts_made st + lo <= posts_made (snd (m st)))%nat
       | Raise _ => True
       end.



(** * Properties *)


(** ** The monad *)

Ltac run_monad :=
  cbv beta delta [bind ret raise lift try_except do_post random_uniform time_sleep] in *.

Lemma posted_refl st : posted 0 st st.
Proof.
  split; [lia|]. exists []. by rewrite app_nil_r.
Qed.

Lemma posted_trans n m st1 st2 st3 :
  posted n st1 st2 -> posted m st2 st3 -> posted (n + m) st1 st3.
Proof.
  intros [Hn (e1 & Hl1 & Hc1)] [Hm (e2 & Hl2 & Hc2)]. split; [lia|].
  exists (e1 ++ e2). split.
  - by rewrite Hl2, Hl1, app_assoc.
  - rewrite List.filter_app, length_app. lia.
Qed.

Lemma posted_log_grows n st st' : posted n st st' -> log_grows st st'.
Proof. intros [_ (evs & H & _)]. by exists evs. Qed.

Lemma log_grows_refl st : log_grows st st.
Proof. exists []. by rewrite app_nil_r. Qed.

Lemma log_grows_trans st1 st2 st3 :
  log_grows st1 st2 -> log_grows st2 st3 -> log_grows st1 st3.
Proof.
  intros [e1 H1] [e2 H2]. exists (e1 ++ e2). by rewrite H2, H1, app_assoc.
Qed.

(** ** The retry wrapper *)

Lemma raise_for_status_raises_HTTPError r e :
  raise_for_status r = Raise e -> exn_class_of e = HTTPError.
Proof.
  unfold raise_for_status. repeat case_match; intros [= <-]; reflexivity.
Qed.

Lemma raise_for_status_error_range r :
  (400 <= status_code r < 600)%Z -> exists e, raise_for_status r = Raise e.
Proof.
  intros H. unfold raise_for_status.
  destruct ((400 <=? status_code r) && (status_code r <? 500))%Z eqn:E1; [eauto|].
  destruct ((500 <=? status_code r) && (status_code r <? 600))%Z eqn:E2; [eauto|].
  lia.
Qed.

Lemma retry_after_wait_hint r : retry_after_wait r = Ok (retry_after_hint r).
Proof.
  unfold retry_after_wait, retry_after_hint, headers_contains, headers_getitem.
  change (Py.lower "Retry-After") with "retry-after".
  destruct (headers r !! "retry-after") as [[k v]|]; [|reflexivity].
  by destruct (PyInt.int_of_str v).
Qed.

(** One iteration, by what its POST comes to. *)
Lemma attempt_body_eq w url hdrs json mr a st :
  attempt_body w url hdrs json mr a st =
  let st1 := log_event (EvPost url hdrs json) (count_post st) in
  match classify (requests_post w (posts_made st) url hdrs json) with
  | Succeeds r => (Ok (Return r), st1)
  | RateLimited r =>
      let secs := (inject_Z (retry_after_hint r * 2 ^ a) + jitter_of w st)%Q in
      if Qle_bool 0 secs
      then (Ok Continue, log_event (EvSleep secs) (count_random st1))
      else (Raise (Exn ValueError "sleep length must be non-negative"),
            count_random st1)
  | Errors e =>
      if (a =? mr - 1)%Z then (Raise e, st1)
      else
        let secs := (inject_Z (2 ^ a) + jitter_of w st)%Q in
        if Qle_bool 0 secs
        then (Ok Continue, log_event (EvSleep secs) (count_random st1))
        else (Raise (Exn ValueError "sleep length must be non-negative"),
              count_random st1)
  | Escapes e => (Raise e, st1)
  end.
Proof.
  unfold attempt_body, classify. run_monad.
  destruct (requests_post w (posts_made st) url hdrs json) as [r|e]; cbn.
  - destruct (status_code r =? 429)%Z.
    + rewrite retry_after_wait_hint. unfold jitter_of. cbn.
      by destruct (Qle_bool 0 _).
    + destruct (raise_for_status r) as [[]|e] eqn:E; [done|].
      unfold is_RequestException.
      rewrite (raise_for_status_raises_HTTPError _ _ E).
      destruct (a =? mr - 1)%Z; [done|]. unfold jitter_of. cbn.
      by destruct (Qle_bool 0 _).
  - destruct (is_RequestException e); [|done].
    destruct (a =? mr - 1)%Z; [done|]. unfold jitter_of. cbn.
    by destruct (Qle_bool 0 _).
Qed.

Lemma for_attempts_cons w url hdrs json mr a rest st :
  for_attempts w url hdrs json mr (a :: rest) st =
  match attempt_body w url hdrs json mr a st with
  | (Ok (Return r), st') => (Ok r, st')
  | (Ok Continue, st') => for_attempts w url hdrs json mr rest st'
  | (Raise e, st') => (Raise e, st')
  end.
Proof.
  cbn [for_attempts]. unfold bind, ret.
  by destruct (attempt_body w url hdrs json mr a st) as [[[|r]|e] st'].
Qed.

Lemma classify_succeeds o r :
  classify o = Succeeds r ->
  o = Responds r /\ status_code r <> 429%Z /\ raise_for_status r = Ok tt.
Proof.
  unfold classify. destruct o as [r'|e].
  - destruct (status_code r' =? 429)%Z eqn:E; [done|].
    destruct (raise_for_status r') as [[]|e] eqn:E2; [|done].
    intros [= ->]. split_and!; [done|lia|done].
  - by destruct (is_RequestException e).
Qed.

Lemma jitter_bounds w st :
  random_in_range w ->
  ((1 # 2) <= jitter_of w st)%Q /\ (jitter_of w st < (3 # 2))%Q.
Proof.
  intros H. destruct (H (randoms_drawn st)) as [H0 H1].
  unfold jitter_of. split; lra.
Qed.

Lemma backoff_nonneg w st (h a : Z) :
  random_in_range w -> (0 <= h)%Z -> (0 <= a)%Z ->
  Qle_bool 0 (inject_Z (h * 2 ^ a) + jitter_of w st) = true.
Proof.
  intros Hw Hh Ha. apply Qle_bool_iff.
  destruct (jitter_bounds w st Hw) as [Hj _].
  assert (Hz : (0 <= h * 2 ^ a)%Z) by (apply Z.mul_nonneg_nonneg; lia).
  rewrite Zle_Qle in Hz. change (inject_Z 0) with 0%Q in Hz. lra.
Qed.

Lemma attempt_body_posted w url hdrs json mr a st :
  posted 1 st (snd (attempt_body w url hdrs json mr a st)).
Proof.
  rewrite attempt_body_eq. cbv zeta.
  destruct (classify _); repeat case_match; cbn [snd];
    (split; [cbn; lia|]);
    (eexists; split; [cbn; try rewrite <- app_assoc; reflexivity | reflexivity]).
Qed.

Lemma attempt_body_return w url hdrs json mr a st r st' :
  attempt_body w url hdrs json mr a st = (Ok (Return r), st') ->
  status_code r <> 429%Z /\ raise_for_status r = Ok tt.
Proof.
  rewrite attempt_body_eq. cbv zeta.
  destruct (classify _) eqn:E; repeat case_match; try done.
  intros [= -> _]. by apply classify_succeeds in E as (_ & ? & ?).
Qed.

Lemma for_attempts_posted w url hdrs json mr attempts st :
  exists n, (n <= length attempts)%nat
    /\ (attempts <> [] -> (1 <= n)%nat)
    /\ posted n st (snd (for_attempts w url hdrs json mr attempts st)).
Proof.
  revert st. induction attempts as [|a rest IH]; intros st.
  - exists 0%nat. split_and!; [done|done|apply posted_refl].
  - rewrite for_attempts_cons.
    pose proof (attempt_body_posted w url hdrs json mr a st) as H1.
    destruct (attempt_body w url hdrs json mr a st) as [[[|r]|e] st1]; cbn [snd] in *.
    + destruct (IH st1) as (n & Hn & _ & Hp).
      exists (1 + n)%nat. split_and!; [cbn; lia|lia|by eapply posted_trans].
    + exists 1%nat. split_and!; [cbn; lia|lia|done].
    + exists 1%nat. split_and!; [cbn; lia|lia|done].
Qed.

Lemma for_attempts_return w url hdrs json mr attempts st r st' :
  for_attempts w url hdrs json mr attempts st = (Ok r, st') ->
  status_code r <> 429%Z /\ raise_for_status r = Ok tt.
Proof.
  revert st. induction attempts as [|a rest IH]; intros st; [done|].
  rewrite for_attempts_cons.
  destruct (attempt_body w url hdrs json mr a st) as [[[|r1]|e] st1] eqn:E; [by eauto| |done].
  intros [= -> ->]. by eapply attempt_body_return.
Qed.

Lemma make_api_request_posted w url hdrs json mr st :
  exists n, (n <= Z.to_nat mr)%nat
    /\ posted n st (snd (make_api_request_with_retry w url hdrs json mr st)).
Proof.
  unfold make_api_request_with_retry.
  destruct (for_attempts_posted w url hdrs json mr (range mr) st) as (n & Hn & _ & Hp).
  exists n. split; [|done]. unfold range in Hn.
  by rewrite length_map, length_seq in Hn.
Qed.

(** C9: a call of the wrapper with the default ceiling makes between one
    and five POSTs, and then it has either returned a response (one whose
    status is not 429 and passes [raise_for_status]) or raised. The model
    is a total function, so every call ends. *)
Theorem retry_wrapper_at_most_five_posts w url hdrs json st :
  exists n, (1 <= n <= 5)%nat
    /\ posted n st
         (snd (make_api_request_with_retry w url hdrs json default_max_retries st))
    /\ match fst (make_api_request_with_retry w url hdrs json default_max_retries st) with
       | Ok r => status_code r <> 429%Z /\ raise_for_status r = Ok tt
       | Raise _ => True
       end.
Proof.
  unfold make_api_request_with_retry.
  destruct (for_attempts_posted w url hdrs json default_max_retries
              (range default_max_retries) st) as (n & Hn & H1 & Hp).
  exists n. split_and!.
  - by apply H1.
  - exact Hn.
  - done.
  - destruct (for_attempts _ _ _ _ _ _ st) as [[r|e] st'] eqn:E; [|done].
    by eapply for_attempts_return.
Qed.

(** C1, as the code has it: an error status (400 to 599) other than 429
    makes [raise_for_status] raise an [HTTPError] inside the [try], and the
    handler treats it as it treats a network failure.  On the last attempt
    ([attempt = max_retries - 1]) it is raised to the caller at once, after
    that one POST; on an earlier attempt the wrapper sleeps
    [2^attempt + jitter] seconds and goes on with the attempts that remain. *)
Theorem http_error_status_is_retried_until_last_attempt
    w url hdrs json mr a rest st r :
  requests_post w (posts_made st) url hdrs json = Responds r ->
  (400 <= status_code r < 600)%Z ->
  status_code r <> 429%Z ->
  (0 <= a)%Z ->
  random_in_range w ->
  exists e,
    raise_for_status r = Raise e /\ exn_class_of e = HTTPError /\
    for_attempts w url hdrs json mr (a :: rest) st =
      let st1 := log_event (EvPost url hdrs json) (count_post st) in
      if (a =? mr - 1)%Z then (Raise e, st1)
      else for_attempts w url hdrs json mr rest
             (log_event (EvSleep (inject_Z (2 ^ a) + jitter_of w st))
                        (count_random st1)).
Proof.
  intros Hpost Hrange H429 Ha Hw.
  destruct (raise_for_status_error_range r Hrange) as [e He].
  exists e. split_and!; [done|by eapply raise_for_status_raises_HTTPError|].
  rewrite for_attempts_cons, attempt_body_eq, Hpost. unfold classify.
  apply Z.eqb_neq in H429. rewrite H429, He. cbv zeta.
  destruct (a =? mr - 1)%Z; [done|].
  pose proof (backoff_nonneg w st 1 a Hw ltac:(lia) Ha) as Hs.
  rewrite Z.mul_1_l in Hs. by rewrite Hs.
Qed.




Lemma sample_world_random_in_range answers : random_in_range (sample_world answers).
Proof. intros n. cbn. split; [apply Qle_refl | reflexivity]. Defined.

Lemma http_error_status_is_retried_until_last_attempt_witness :
  exists e,
    raise_for_status (sample_response 500 ∅ "") = Raise e
    /\ exn_class_of e = HTTPError
    /\ for_attempts error_500_then_ok "u" [] sample_payload 5 [0; 1; 2; 3; 4]%Z
         initial_state =
       for_attempts error_500_then_ok "u" [] sample_payload 5 [1; 2; 3; 4]%Z
         (log_event (EvSleep (inject_Z (2 ^ 0) + jitter_of error_500_then_ok initial_state))
            (count_random (log_event (EvPost "u" [] sample_payload)
                             (count_post initial_state)))).
Proof.
  apply (http_error_status_is_retried_until_last_attempt
           error_500_then_ok "u" [] sample_payload 5 0 [1; 2; 3; 4]%Z initial_state
           (sample_response 500 ∅ "")).
  - reflexivity.
  - cbn. lia.
  - cbn. lia.
  - lia.
  - apply sample_world_random_in_range.
Defined.

(** C1 fails as stated: the first POST is answered with status 500, which
    is neither a success nor 429, and the wrapper does not fail: it sleeps,
    makes a second POST and returns that one's response. *)
Lemma http_error_then_success_counterexample :
  requests_post error_500_then_ok 0 "u" [] sample_payload
    = Responds (sample_response 500 ∅ "")
  /\ (exists e, raise_for_status (sample_response 500 ∅ "") = Raise e)
  /\ exists st',
       make_api_request_with_retry error_500_then_ok "u" [] sample_payload
         default_max_retries initial_state
       = (Ok (sample_response 200 ∅ "a,b"), st')
       /\ posts_made st' = 2%nat.
Proof.
  split_and!; [reflexivity | eexists; reflexivity |].
  eexists. split; [vm_compute; reflexivity | reflexivity].
Qed.





(** ** Strings *)

Section string_facts.
Local Arguments String.append !_ _ / : simpl nomatch.
Implicit Types (s t p : string) (c : ascii) (n i : nat).

Lemma str_length_app s t : String.length (s +:+ t) = (String.length s + String.length t)%nat.
Proof. induction s as [|c s IH]; cbn; [done|by rewrite IH]. Qed.

Lemma app_empty_r s : s +:+ "" = s.
Proof. induction s as [|c s IH]; cbn; [done|by rewrite IH]. Qed.

Lemma app_assoc_str s t p : (s +:+ t) +:+ p = s +:+ (t +:+ p).
Proof. induction s as [|c s IH]; cbn; [done|by rewrite IH]. Qed.

Lemma lower_app s t : Py.lower (s +:+ t) = Py.lower s +:+ Py.lower t.
Proof. induction s as [|c s IH]; cbn; [done|by rewrite IH]. Qed.

Lemma length_lower s : String.length (Py.lower s) = String.length s.
Proof. induction s as [|c s IH]; cbn; [done|by rewrite IH]. Qed.

Lemma slice_from_app s t : Py.slice_from (String.length s) (s +:+ t) = t.
Proof. induction s as [|c s IH]; cbn; [by destruct t|done]. Qed.

Lemma slice_from_app_add s t n :
  Py.slice_from (String.length s + n) (s +:+ t) = Py.slice_from n t.
Proof. induction s as [|c s IH]; cbn; done. Qed.

Lemma slice_to_app s t : Py.slice_to (String.length s) (s +:+ t) = s.
Proof. induction s as [|c s IH]; cbn; [by destruct t|by rewrite IH]. Qed.

Lemma slice_to_from n s : Py.slice_to n s +:+ Py.slice_from n s = s.
Proof.
  revert s. induction n as [|n IH]; intros [|c s]; cbn; try done.
  by rewrite IH.
Qed.

Lemma startswith_app p s : Py.startswith (p +:+ s) p = true.
Proof.
  induction p as [|c p IH]; cbn; [by destruct s|].
  by destruct (ascii_dec c c).
Qed.

Lemma startswith_length s p :
  Py.startswith s p = true -> (String.length p <= String.length s)%nat.
Proof.
  revert s. induction p as [|c p IH]; intros [|d s]; cbn; try done; try lia.
  destruct (ascii_dec c d); [|done]. intros H. apply IH in H. lia.
Qed.

(** Text after a string that is long enough does not change whether it
    starts with [p]. *)
Lemma startswith_app_long s t p :
  (String.length p <= String.length s)%nat ->
  Py.startswith (s +:+ t) p = Py.startswith s p.
Proof.
  revert s. induction p as [|c p IH]; intros [|d s]; cbn; try done; try lia.
  intros H. destruct (ascii_dec c d); [|done]. apply IH. lia.
Qed.

Lemma endswith_app s p : Py.endswith (s +:+ p) p = true.
Proof.
  unfold Py.endswith. rewrite str_length_app.
  replace (String.length s + String.length p - String.length p)%nat
    with (String.length s) by lia.
  rewrite slice_from_app, bool_decide_eq_true_2 by done.
  rewrite andb_true_r. apply Nat.leb_le. lia.
Qed.

Lemma endswith_inv s p : Py.endswith s p = true -> exists t, s = t +:+ p.
Proof.
  unfold Py.endswith. intros [_ H%bool_decide_eq_true]%andb_true_iff.
  remember (String.length s - String.length p)%nat as n eqn:En.
  exists (Py.slice_to n s). clear En. subst p. by rewrite slice_to_from.
Qed.

Lemma find_bound s p i :
  Py.find s p = Some i -> (i + String.length p <= String.length s)%nat.
Proof.
  revert i. induction s as [|c s IH]; intros i.
  - destruct p; cbn; [by intros [= <-]|done].
  - cbn [Py.find]. destruct (Py.startswith (String c s) p) eqn:E.
    + intros [= <-]. apply startswith_length in E. lia.
    + destruct (Py.find s p) as [j|] eqn:Ej; [|done].
      intros [= <-]. specialize (IH j eq_refl). cbn. lia.
Qed.

Lemma find_app_here p s : Py.find (p +:+ s) p = Some 0%nat.
Proof.
  destruct (p +:+ s) eqn:E; cbn [Py.find]; rewrite <- E, startswith_app; done.
Qed.

(** The first occurrence stays the first when text is added at the end. *)
Lemma find_app_r s t p i : Py.find s p = Some i -> Py.find (s +:+ t) p = Some i.
Proof.
  revert i. induction s as [|c s IH]; intros i.
  - destruct p; [|done]. cbn. intros [= <-]. by destruct t.
  - cbn [Py.find String.append].
    change (String c (s +:+ t)) with (String c s +:+ t).
    destruct (Py.startswith (String c s) p) eqn:E.
    + intros [= <-].
      rewrite startswith_app_long by by apply startswith_length.
      by rewrite E.
    + destruct (Py.find s p) as [j|] eqn:Ej; [|done].
      intros [= <-]. rewrite startswith_app_long, E.
      * by rewrite (IH j eq_refl).
      * apply find_bound in Ej. cbn. lia.
Qed.

Lemma find_none_tail c s p : Py.find (String c s) p = None -> Py.find s p = None.
Proof.
  cbn [Py.find]. destruct (Py.startswith (String c s) p); [done|].
  by destruct (Py.find s p).
Qed.

Lemma find_none_slice_from n s p :
  Py.find s p = None -> Py.find (Py.slice_from n s) p = None.
Proof.
  revert s. induction n as [|n IH]; intros [|c s] H; cbn; try done.
  apply IH. by eapply find_none_tail.
Qed.

Lemma find_none_prefix s t p : Py.find (s +:+ t) p = None -> Py.find s p = None.
Proof.
  intros H. destruct (Py.find s p) as [i|] eqn:E; [|done].
  by rewrite (find_app_r _ t _ _ E) in H.
Qed.

Lemma find_none_lstrip s p : Py.find s p = None -> Py.find (Py.lstrip s) p = None.
Proof.
  induction s as [|c s IH]; [done|]. intros H. cbn [Py.lstrip].
  destruct (Py.isspace c); [|done]. apply IH. by eapply find_none_tail.
Qed.

Lemma rstrip_prefix s : exists t, s = Py.rstrip s +:+ t.
Proof.
  induction s as [|c s [t IH]]; [by exists ""|]. cbn [Py.rstrip].
  destruct (Py.rstrip s) as [|d u] eqn:E.
  - destruct (Py.isspace c).
    + by exists (String c s).
    + exists s. done.
  - exists t. by rewrite IH at 1.
Qed.

Lemma find_none_strip s p : Py.find s p = None -> Py.find (Py.strip s) p = None.
Proof.
  intros H%(find_none_lstrip _ p). unfold Py.strip.
  destruct (rstrip_prefix (Py.lstrip s)) as [t Ht]. rewrite Ht in H.
  by eapply find_none_prefix.
Qed.

(** [split] unfolded once, for a separator that is not empty. *)
Lemma split_unfold s c sep' :
  Py.split s (String c sep') =
  match Py.find s (String c sep') with
  | Some i =>
      Py.slice_to i s
      :: Py.split (Py.slice_from (i + String.length (String c sep')) s) (String c sep')
  | None => [s]
  end.
Proof.
  funelim (Py.split s (String c sep')); try done.
  all: repeat match goal with
              | H : String _ _ = String _ _ |- _ => injection H as <- <-
              end.
  all: match goal with H : Py.find _ _ = _ |- _ => by rewrite H end.
Qed.

End string_facts.

(** ** The clean-up of the chat model's answer *)

Lemma closing_fence_first_no_fence_inside body :
  Py.find (body +:+ FENCE) FENCE = Some (String.length body) ->
  Py.find body FENCE = None.
Proof.
  intros H. destruct (Py.find body FENCE) as [i|] eqn:E; [|done].
  pose proof (find_bound _ _ _ E) as Hb.
  rewrite (find_app_r _ FENCE _ _ E) in H. injection H as ->.
  cbn in Hb. lia.
Qed.

Lemma split_fence s :
  Py.split s FENCE =
  match Py.find s FENCE with
  | Some i => Py.slice_to i s :: Py.split (Py.slice_from (i + 3) s) FENCE
  | None => [s]
  end.
Proof. apply split_unfold. Qed.

Lemma clean_csv_content_fenced body rest :
  Py.find (body +:+ FENCE) FENCE = Some (String.length body) ->
  clean_csv_content (FENCE +:+ body +:+ FENCE +:+ rest) =
    Ok (Py.strip (if Py.startswith body "csv" then Py.slice_from 3 body else body)).
Proof.
  intros H. unfold clean_csv_content, Py.contains.
  rewrite find_app_here, split_fence, find_app_here.
  change (Py.slice_from (0 + 3) (FENCE +:+ body +:+ FENCE +:+ rest))
    with (body +:+ FENCE +:+ rest).
  rewrite split_fence.
  rewrite <- (app_assoc_str body FENCE rest), (find_app_r _ rest _ _ H).
  rewrite (app_assoc_str body FENCE rest), slice_to_app. done.
Qed.

(** C5: when the chat model's answer is an opening fence, a body, the
    closing fence (the first fence after the opening one) and whatever
    follows it, [text_to_csv] returns the body without a leading [csv] tag
    and with the white space around it stripped, and no fence occurs in
    what it returns. *)
Theorem fenced_answer_is_unwrapped w text st resp st' body rest :
  make_api_request_with_retry w OPENROUTER_API_URL (api_headers w)
    (chat_payload w text) default_max_retries st = (Ok resp, st') ->
  completion_text resp = Ok (FENCE +:+ body +:+ FENCE +:+ rest) ->
  Py.find (body +:+ FENCE) FENCE = Some (String.length body) ->
  text_to_csv w text st =
    (Ok (Py.strip (if Py.startswith body "csv" then Py.slice_from 3 body else body)),
     st')
  /\ Py.contains
       (Py.strip (if Py.startswith body "csv" then Py.slice_from 3 body else body))
       FENCE = false.
Proof.
  intros Hcall Htext Hfence. split.
  - unfold text_to_csv, bind, lift. rewrite Hcall, Htext.
    by rewrite clean_csv_content_fenced.
  - unfold Py.contains.
    pose proof (closing_fence_first_no_fence_inside body Hfence) as Hnone.
    rewrite find_none_strip; [done|].
    destruct (Py.startswith body "csv"); [|done].
    by apply find_none_slice_from.
Qed.

Lemma fenced_answer_is_unwrapped_witness :
  exists st',
    text_to_csv (always_ok (FENCE +:+ ("csv" +:+ LF +:+ "a,b" +:+ LF) +:+ FENCE +:+ ""))
      "x" initial_state = (Ok "a,b", st')
    /\ Py.contains "a,b" FENCE = false.
Proof.
  eexists.
  apply (fenced_answer_is_unwrapped
           (always_ok (FENCE +:+ ("csv" +:+ LF +:+ "a,b" +:+ LF) +:+ FENCE +:+ ""))
           "x" initial_state
           (sample_response 200 ∅ (FENCE +:+ ("csv" +:+ LF +:+ "a,b" +:+ LF) +:+ FENCE +:+ ""))
           _ ("csv" +:+ LF +:+ "a,b" +:+ LF) "").
  - vm_compute. reflexivity.
  - reflexivity.
  - reflexivity.
Defined.

(** ** The log through the pipeline *)

Lemma keeps_log_bind {A B} (m : M A) (k : A -> M B) :
  keeps_log m -> (forall a, keeps_log (k a)) -> keeps_log (bind m k).
Proof.
  intros Hm Hk st. unfold bind. specialize (Hm st).
  destruct (m st) as [[a|e] st1]; cbn [snd] in *; [|done].
  eapply log_grows_trans; [done|]. apply Hk.
Qed.

Lemma keeps_log_ret {A} (a : A) : keeps_log (ret a).
Proof. intros st. apply log_grows_refl. Qed.

Lemma keeps_log_lift {A} (r : result A) : keeps_log (lift r).
Proof. intros st. apply log_grows_refl. Qed.

Lemma keeps_log_make_api_request w url hdrs json mr :
  keeps_log (make_api_request_with_retry w url hdrs json mr).
Proof.
  intros st. destruct (make_api_request_posted w url hdrs json mr st) as (n & _ & Hp).
  by eapply posted_log_grows.
Qed.

Lemma keeps_log_ocr_pages w hdrs images :
  forall idx all_text, keeps_log (ocr_pages w hdrs idx images all_text).
Proof.
  induction images as [|img rest IH]; intros idx all_text; cbn [ocr_pages].
  - apply keeps_log_ret.
  - apply keeps_log_bind; [apply keeps_log_make_api_request|]. intros r.
    apply keeps_log_bind; [apply keeps_log_lift|]. intros t. apply IH.
Qed.

Lemma keeps_log_ocr_with_openrouter w images : keeps_log (ocr_with_openrouter w images).
Proof.
  apply keeps_log_bind; [apply keeps_log_ocr_pages|]. intros. apply keeps_log_ret.
Qed.

Lemma keeps_log_text_to_csv w text : keeps_log (text_to_csv w text).
Proof.
  apply keeps_log_bind; [apply keeps_log_make_api_request|]. intros r.
  apply keeps_log_bind; [apply keeps_log_lift|]. intros t. apply keeps_log_lift.
Qed.

(** ** The endpoint *)

(** Past intake the answer is a 200 or a 500, and the first thing done is
    the rasterisation of the bytes as they were read. *)
Lemma pdf_to_csv_accepted w request file st :
  files request !! "file" = Some file ->
  filename file <> "" ->
  Py.endswith (Py.lower (filename file)) ".pdf" = true ->
  exists resp st' evs,
    pdf_to_csv w request st = (resp, st')
    /\ (response_status resp = 200%Z \/ response_status resp = 500%Z)
    /\ log st' = log st ++ EvRasterize (file_bytes file) 100 :: evs.
Proof.
  intros Hfile Hname Hpdf. unfold pdf_to_csv, pdf_to_csv_try.
  rewrite Hfile, bool_decide_eq_false_2, Hpdf by done. cbn [negb].
  unfold bind at 1. unfold pdf_to_images at 1.
  destruct (convert_from_bytes w (file_bytes file) 100) as [images|e].
  2:{ eexists _, _, []. split_and!; [reflexivity|by right|done]. }
  set (st1 := log_event _ st).
  unfold bind at 1.
  pose proof (keeps_log_ocr_with_openrouter w images st1) as [ev1 H1].
  destruct (ocr_with_openrouter w images st1) as [[text|e] st2]; cbn [snd] in H1.
  2:{ eexists _, _, ev1. split_and!; [reflexivity|by right|].
      rewrite H1. subst st1. cbn. by rewrite <- app_assoc. }
  unfold bind at 1.
  pose proof (keeps_log_text_to_csv w text st2) as [ev2 H2].
  destruct (text_to_csv w text st2) as [[csv|e] st3]; cbn [snd] in H2;
    eexists _, _, (ev1 ++ ev2);
    (split_and!; [reflexivity | by (left + right) |]);
    rewrite H2, H1; subst st1; cbn; by rewrite <- !app_assoc.
Qed.

Lemma endswith_lower_pdf name :
  Py.endswith name ".pdf" = true ->
  name <> "" /\ Py.endswith (Py.lower name) ".pdf" = true.
Proof.
  intros [stem ->]%endswith_inv. split.
  - intros H%(f_equal String.length). rewrite str_length_app in H. cbn in H. lia.
  - rewrite lower_app. apply endswith_app.
Qed.

(** C4, as the code has it: intake looks at the presence of the file and
    at its name only.  For a filename that ends in [.pdf] the bytes read,
    empty or not, go to the rasteriser as they are, and the request is not
    answered with a 400: the answer is a 200, or a 500 when a stage
    raises. *)
Theorem upload_content_is_not_validated w request file st :
  files request !! "file" = Some file ->
  Py.endswith (filename file) ".pdf" = true ->
  response_status (fst (pdf_to_csv w request st)) <> 400%Z
  /\ exists evs,
       log (snd (pdf_to_csv w request st))
       = log st ++ EvRasterize (file_bytes file) 100 :: evs.
Proof.
  intros Hfile [Hname Hpdf]%endswith_lower_pdf.
  destruct (pdf_to_csv_accepted w request file st Hfile Hname Hpdf)
    as (resp & st' & evs & -> & Hs & Hl).
  cbn [fst snd]. split; [|by exists evs]. destruct Hs as [-> | ->]; done.
Qed.

Lemma upload_content_is_not_validated_witness :
  response_status (fst (pdf_to_csv (always_ok "a,b") (upload "a.pdf" []) initial_state))
    <> 400%Z
  /\ exists evs,
       log (snd (pdf_to_csv (always_ok "a,b") (upload "a.pdf" []) initial_state))
       = log initial_state ++ EvRasterize [] 100 :: evs.
Proof.
  apply (upload_content_is_not_validated (always_ok "a,b") (upload "a.pdf" [])
           {| filename := "a.pdf"; file_bytes := [] |} initial_state).
  - vm_compute. reflexivity.
  - vm_compute. reflexivity.
Defined.

(** C4 fails as stated: an upload named [a.pdf] with no content is not
    turned down with a 400; its empty bytes are handed to the rasteriser,
    and when that one raises the answer is a 500. *)
Lemma empty_pdf_reaches_rasteriser_counterexample :
  pdf_to_csv (always_ok "a,b") (upload "a.pdf" []) initial_state
  = (Jsonify [("error", "Unable to get page count.")] 500,
     {| posts_made := 0; randoms_drawn := 0; log := [EvRasterize [] 100] |}).
Proof. vm_compute. reflexivity. Qed.

(** C6: when a request is past intake and a stage raises (the rasteriser,
    the vision extraction or the reformatting), the answer is a 500 whose
    JSON body has the one field [error] with the message of that exception;
    nothing of what earlier stages produced is in it. *)
Theorem stage_exception_gives_500 w request file st e st' :
  files request !! "file" = Some file ->
  filename file <> "" ->
  Py.endswith (Py.lower (filename file)) ".pdf" = true ->
  (pdf_to_images w (file_bytes file) st = (Raise e, st')
   \/ exists images st1,
        pdf_to_images w (file_bytes file) st = (Ok images, st1)
        /\ (ocr_with_openrouter w images st1 = (Raise e, st')
            \/ exists text st2,
                 ocr_with_openrouter w images st1 = (Ok text, st2)
                 /\ text_to_csv w text st2 = (Raise e, st'))) ->
  pdf_to_csv w request st = (Jsonify [("error", exn_str e)] 500, st').
Proof.
  intros Hfile Hname Hpdf Hstage. unfold pdf_to_csv, pdf_to_csv_try.
  rewrite Hfile, bool_decide_eq_false_2, Hpdf by done. cbn [negb].
  unfold bind at 1.
  destruct Hstage as [-> | (images & st1 & -> & Hrest)]; [done|].
  unfold bind at 1.
  destruct Hrest as [-> | (text & st2 & -> & Hcsv)]; [done|].
  unfold bind at 1. by rewrite Hcsv.
Qed.

Lemma stage_exception_gives_500_witness :
  pdf_to_csv (always_429) (upload "scan.pdf" [x25; x50; x44; x46]) initial_state
  = (Jsonify [("error", "Max retries reached")] 500,
     snd (ocr_with_openrouter always_429 [Raster 0; Raster 1]
            (log_event (EvRasterize [x25; x50; x44; x46] 100) initial_state))).
Proof.
  apply (stage_exception_gives_500 always_429
           (upload "scan.pdf" [x25; x50; x44; x46])
           {| filename := "scan.pdf"; file_bytes := [x25; x50; x44; x46] |}
           initial_state (Exn PlainException "Max retries reached")).
  - vm_compute. reflexivity.
  - discriminate.
  - vm_compute. reflexivity.
  - right. eexists _, _. split; [reflexivity|]. left.
    vm_compute. reflexivity.
Defined.

(** C7, as the code has it: a request with no [file] field, with an empty
    filename, or with a filename that does not end in [.pdf] once it is
    lower-cased, is answered 400 with a JSON body that has an [error]
    field; the state is left as it was, so nothing was rasterised and no
    POST was made. *)
Theorem rejected_upload_gets_400 w request st :
  intake_rejects request ->
  exists msg, pdf_to_csv w request st = (Jsonify [("error", msg)] 400, st).
Proof.
  unfold intake_rejects, pdf_to_csv, pdf_to_csv_try.
  destruct (files request !! "file") as [file|]; [|by eexists].
  intros [Hempty | Hsuffix].
  - rewrite bool_decide_eq_true_2 by done. by eexists.
  - destruct (bool_decide (filename file = "")); [by eexists|].
    rewrite Hsuffix. by eexists.
Qed.

Lemma rejected_upload_gets_400_witness :
  exists msg,
    pdf_to_csv (always_ok "a,b") (upload "notes.txt" [x25]) initial_state
    = (Jsonify [("error", msg)] 400, initial_state).
Proof.
  apply (rejected_upload_gets_400 (always_ok "a,b") (upload "notes.txt" [x25])
           initial_state).
  vm_compute. right. reflexivity.
Defined.

(** C7 fails as stated: the filename [A.PDF] does not end in [.pdf], and
    the request is not answered 400; the upload is rasterised, three POSTs
    are made and the answer is the CSV file. *)
Lemma upper_case_suffix_not_rejected_counterexample :
  Py.endswith "A.PDF" ".pdf" = false
  /\ exists st',
       pdf_to_csv (always_ok "a,b") (upload "A.PDF" [x25]) initial_state
       = (SendFile (utf8_encode "a,b") "text/csv" true "output.csv", st')
       /\ posts_made st' = 3%nat
       /\ head (log st') = Some (EvRasterize [x25] 100).
Proof.
  split; [reflexivity|]. eexists. split_and!.
  - vm_compute. reflexivity.
  - reflexivity.
  - reflexivity.
Qed.

Lemma pdf_suffix_lower suffix :
  suffix ∈ pdf_suffixes -> Py.lower suffix = ".pdf".
Proof.
  unfold pdf_suffixes. rewrite !elem_of_cons, elem_of_nil.
  intros H. repeat (destruct H as [-> | H]; [reflexivity|]). done.
Qed.

(** C10: a filename that ends in [.pdf] written in any mix of upper and
    lower case passes intake: the answer is not the 400 "File must be a
    PDF" (it is no 400 at all), and the upload is rasterised. *)
Theorem pdf_suffix_check_ignores_case w request file stem suffix st :
  files request !! "file" = Some file ->
  filename file = stem +:+ suffix ->
  suffix ∈ pdf_suffixes ->
  fst (pdf_to_csv w request st) <> Jsonify [("error", "File must be a PDF")] 400
  /\ response_status (fst (pdf_to_csv w request st)) <> 400%Z
  /\ exists evs,
       log (snd (pdf_to_csv w request st))
       = log st ++ EvRasterize (file_bytes file) 100 :: evs.
Proof.
  intros Hfile Hname Hsuffix.
  pose proof (pdf_suffix_lower suffix Hsuffix) as Hlow.
  assert (Hne : filename file <> "").
  { rewrite Hname. intros H%(f_equal String.length).
    rewrite str_length_app, <- (length_lower suffix), Hlow in H. cbn in H. lia. }
  assert (Hpdf : Py.endswith (Py.lower (filename file)) ".pdf" = true).
  { rewrite Hname, lower_app, Hlow. apply endswith_app. }
  destruct (pdf_to_csv_accepted w request file st Hfile Hne Hpdf)
    as (resp & st' & evs & -> & Hs & Hl).
  cbn [fst snd]. split_and!; [|destruct Hs as [-> | ->]; done|by exists evs].
  intros ->. destruct Hs as [Hs | Hs]; cbn in Hs; lia.
Qed.

Lemma pdf_suffix_check_ignores_case_witness :
  fst (pdf_to_csv (always_ok "a,b") (upload "Report.PdF" [x25]) initial_state)
    <> Jsonify [("error", "File must be a PDF")] 400
  /\ response_status
       (fst (pdf_to_csv (always_ok "a,b") (upload "Report.PdF" [x25]) initial_state))
     <> 400%Z
  /\ exists evs,
       log (snd (pdf_to_csv (always_ok "a,b") (upload "Report.PdF" [x25]) initial_state))
       = log initial_state ++ EvRasterize [x25] 100 :: evs.
Proof.
  apply (pdf_suffix_check_ignores_case (always_ok "a,b") (upload "Report.PdF" [x25])
           {| filename := "Report.PdF"; file_bytes := [x25] |} "Report" ".PdF"
           initial_state).
  - vm_compute. reflexivity.
  - reflexivity.
  - unfold pdf_suffixes. rewrite !elem_of_cons. do 5 right. left. reflexivity.
Defined.

(** ** The vision stage *)

Lemma ocr_pages_spec w images :
  forall idx all_text st,
    ocr_pages w (api_headers w) idx images all_text st =
    (let! texts := page_texts w images in
     ret (all_text ++ imap (fun i => page_block (idx + i)) texts)) st.
Proof.
  induction images as [|img rest IH]; intros idx all_text st.
  - cbn. by rewrite app_nil_r.
  - cbn [ocr_pages page_texts]. unfold page_text, bind at 1 3 4 5, lift.
    destruct (make_api_request_with_retry _ _ _ _ _ st) as [[r|e] st1]; [|done].
    unfold bind at 1. destruct (completion_text r) as [text|e]; [|done].
    rewrite IH. unfold bind, ret.
    destruct (page_texts w rest st1) as [[texts|e] st2]; [|done].
    do 2 f_equal. rewrite imap_cons, <- app_assoc. cbn [app].
    rewrite Nat.add_0_r. do 2 f_equal.
    apply imap_ext. intros i t _. cbn. f_equal. lia.
Qed.


Lemma ocr_with_openrouter_spec w images st :
  ocr_with_openrouter w images st = extracted_text_spec w images st.
Proof.
  unfold ocr_with_openrouter, extracted_text_spec, bind at 1.
  rewrite ocr_pages_spec. unfold bind, ret.
  by destruct (page_texts w images st) as [[texts|e] st1].
Qed.


(** Three pages, the server answering the [n]-th POST with the text [n]. *)
Example three_pages_in_order :
  fst (ocr_with_openrouter
         (sample_world (fun n => Responds (sample_response 200 ∅
                                             (Py.str_of_int (Z.of_nat n)))))
         [Raster 7; Raster 8; Raster 9] initial_state)
  = Ok ("--- Page 1 ---" +:+ LF +:+ "0" +:+ LF +:+ LF +:+
        "--- Page 2 ---" +:+ LF +:+ "1" +:+ LF +:+ LF +:+
        "--- Page 3 ---" +:+ LF +:+ "2").
Proof. vm_compute. reflexivity. Qed.

(** A POST that succeeds at once is returned after that one POST. *)
Lemma make_api_request_first_success w url hdrs json st r :
  classify (requests_post w (posts_made st) url hdrs json) = Succeeds r ->
  make_api_request_with_retry w url hdrs json default_max_retries st =
    (Ok r, log_event (EvPost url hdrs json) (count_post st)).
Proof.
  intros H. unfold make_api_request_with_retry.
  change (range default_max_retries) with [0; 1; 2; 3; 4]%Z.
  by rewrite for_attempts_cons, attempt_body_eq, H.
Qed.

(** With a server that answers the request for a page with a text that
    depends on the page only, the extracted text is made of the blocks of
    the pages' texts in the order of the pages. *)
Lemma ocr_with_answering_server w (text_of : image -> string) images st :
  (forall n img,
     requests_post w n OPENROUTER_API_URL (api_headers w)
       (vision_payload w (image_to_base64 w img))
     = Responds (sample_response 200 ∅ (text_of img))) ->
  fst (ocr_with_openrouter w images st)
  = Ok (Py.join (LF +:+ LF) (imap page_block (map text_of images))).
Proof.
  intros Hserver.
  rewrite ocr_with_openrouter_spec.
  unfold extracted_text_spec, bind, ret.
  assert (H : forall st0, fst (page_texts w images st0) = Ok (map text_of images)).
  { induction images as [|img rest IH]; intros st0; [done|].
    cbn [page_texts map]. unfold page_text, bind, lift, ret.
    rewrite (make_api_request_first_success _ _ _ _ _
               (sample_response 200 ∅ (text_of img)))
      by by rewrite Hserver.
    cbn [completion_text sample_response json_body completion_choices lookup
         list_lookup choice_message reply_content].
    specialize (IH (log_event
                      (EvPost OPENROUTER_API_URL (api_headers w)
                         (vision_payload w (image_to_base64 w img)))
                      (count_post st0))).
    destruct (page_texts w rest _) as [[texts|e] st2]; cbn in IH |- *; congruence. }
  specialize (H st). destruct (page_texts w images st) as [[texts|e] st1];
    cbn in H |- *; congruence.
Qed.

(** ** The model on concrete inputs *)

Example int_of_str_seconds : PyInt.int_of_str "120" = Some 120%Z.
Proof. reflexivity. Qed.

Example int_of_str_blanks_and_sign : PyInt.int_of_str " +7 " = Some 7%Z.
Proof. reflexivity. Qed.

Example int_of_str_negative : PyInt.int_of_str "-3" = Some (-3)%Z.
Proof. reflexivity. Qed.

Example int_of_str_decimal_point : PyInt.int_of_str "2.5" = None.
Proof. reflexivity. Qed.

Example int_of_str_http_date :
  PyInt.int_of_str "Wed, 21 Oct 2015 07:28:00 GMT" = None.
Proof. reflexivity. Qed.

Example split_on_fence :
  Py.split ("a" +:+ FENCE +:+ "b" +:+ FENCE +:+ "`c") FENCE = ["a"; "b"; "`c"].
Proof. reflexivity. Qed.

Example split_without_fence : Py.split "a,b" FENCE = ["a,b"].
Proof. reflexivity. Qed.

Example strip_both_ends : Py.strip (LF +:+ "  a b " +:+ LF) = "a b".
Proof. reflexivity. Qed.

Example endswith_too_short : Py.endswith "pdf" ".pdf" = false.
Proof. reflexivity. Qed.

Example retry_after_is_case_insensitive :
  retry_after_wait
    (sample_response 429 {[ "retry-after" := ("RETRY-AFTER", "2") ]} "")
  = Ok 2%Z.
Proof. vm_compute. reflexivity. Qed.

(** One 429 with [Retry-After: 2], then a success: the wrapper sleeps
    [2 * 2^0 + 0.5] seconds and returns the second response. *)
Example rate_limited_once_then_success :
  let w := sample_world (fun n =>
             match n with
             | O => Responds (sample_response 429
                                {[ "retry-after" := ("Retry-After", "2") ]} "")
             | S _ => Responds (sample_response 200 ∅ "a,b")
             end) in
  exists st',
    make_api_request_with_retry w "u" [] sample_payload default_max_retries
      initial_state = (Ok (sample_response 200 ∅ "a,b"), st')
    /\ List.filter (fun ev => negb (is_post ev)) (log st') = [EvSleep (20 # 8)].
Proof. eexists. split; [vm_compute; reflexivity | reflexivity]. Qed.

(** A negative [Retry-After] makes [time.sleep] raise, and that exception
    is not caught by the handler. *)
Example negative_hint_escapes :
  fst (make_api_request_with_retry
         (sample_world (fun _ =>
            Responds (sample_response 429
                        {[ "retry-after" := ("Retry-After", "-2") ]} "")))
         "u" [] sample_payload default_max_retries initial_state)
  = Raise (Exn ValueError "sleep length must be non-negative").
Proof. vm_compute. reflexivity. Qed.

(** Five network failures: the fifth is what the caller gets. *)
Example five_timeouts :
  fst (make_api_request_with_retry
         (sample_world (fun n =>
            Fails (Exn Timeout ("timed out " +:+ Py.str_of_int (Z.of_nat n)))))
         "u" [] sample_payload default_max_retries initial_state)
  = Raise (Exn Timeout "timed out 4").
Proof. vm_compute. reflexivity. Qed.


(** * Further properties of the code *)

(** ** The retry wrapper: outcomes, log and sleeping time *)

Lemma for_attempts_ok_last_post w url hdrs json mr attempts :
  forall st r st',
    for_attempts w url hdrs json mr attempts st = (Ok r, st') ->
    requests_post w (posts_made st' - 1) url hdrs json = Responds r
    /\ (posts_made st < posts_made st')%nat
    /\ last (log st') = Some (EvPost url hdrs json).
Proof.
  induction attempts as [|a rest IH]; intros st r st'; [done|].
  rewrite for_attempts_cons.
  pose proof (attempt_body_posted w url hdrs json mr a st) as [Hp _].
  destruct (attempt_body w url hdrs json mr a st) as [[[|r1]|e] st1] eqn:E;
    cbn [snd] in Hp; [| |done].
  - intros H. destruct (IH _ _ _ H) as (H1 & H2 & H3). split_and!; [done|lia|done].
  - intros [= -> ->]. rewrite attempt_body_eq in E. cbv zeta in E.
    destruct (classify _) eqn:C; repeat case_match; try done.
    injection E as -> <-. apply classify_succeeds in C as (C & _ & _).
    cbn [posts_made log_event count_post log]. split_and!.
    + by rewrite Nat.sub_1_r.
    + lia.
    + apply last_snoc.
Qed.

(** X1: when the wrapper returns, what it returns is the response the
    server gave to the last POST made, as it came; at least one POST was
    made, and that POST is the last thing the wrapper did (no sleep follows
    a success). *)
Theorem wrapper_returns_response_of_last_post w url hdrs json mr st r st' :
  make_api_request_with_retry w url hdrs json mr st = (Ok r, st') ->
  requests_post w (posts_made st' - 1) url hdrs json = Responds r
  /\ (posts_made st < posts_made st')%nat
  /\ last (log st') = Some (EvPost url hdrs json).
Proof. apply for_attempts_ok_last_post. Qed.

Lemma wrapper_returns_response_of_last_post_witness :
  requests_post error_500_then_ok (2 - 1) "u" [] sample_payload
    = Responds (sample_response 200 ∅ "a,b")
  /\ (posts_made initial_state
      < posts_made (snd (make_api_request_with_retry error_500_then_ok "u" []
                           sample_payload default_max_retries initial_state)))%nat
  /\ last (log (snd (make_api_request_with_retry error_500_then_ok "u" []
                       sample_payload default_max_retries initial_state)))
     = Some (EvPost "u" [] sample_payload).
Proof.
  apply (wrapper_returns_response_of_last_post error_500_then_ok "u" []
           sample_payload default_max_retries initial_state
           (sample_response 200 ∅ "a,b")
           (snd (make_api_request_with_retry error_500_then_ok "u" []
                   sample_payload default_max_retries initial_state))).
  vm_compute. reflexivity.
Defined.

(** X2: a network failure (a RequestException raised by the POST) on the
    last attempt is raised to the caller as it is; on an earlier attempt
    the wrapper sleeps [2^attempt + jitter] seconds and goes on with the
    attempts that remain. *)
Theorem network_failure_backs_off_then_retries w url hdrs json mr a rest st e :
  requests_post w (posts_made st) url hdrs json = Fails e ->
  is_RequestException e = true ->
  (0 <= a)%Z ->
  random_in_range w ->
  for_attempts w url hdrs json mr (a :: rest) st =
    let st1 := log_event (EvPost url hdrs json) (count_post st) in
    if (a =? mr - 1)%Z then (Raise e, st1)
    else for_attempts w url hdrs json mr rest
           (log_event (EvSleep (inject_Z (2 ^ a) + jitter_of w st))
              (count_random st1)).
Proof.
  intros Hpost He Ha Hw.
  rewrite for_attempts_cons, attempt_body_eq, Hpost. unfold classify.
  rewrite He. cbv zeta. destruct (a =? mr - 1)%Z; [done|].
  pose proof (backoff_nonneg w st 1 a Hw ltac:(lia) Ha) as Hs.
  rewrite Z.mul_1_l in Hs. by rewrite Hs.
Qed.

Lemma network_failure_backs_off_then_retries_witness :
  for_attempts (sample_world (fun _ => Fails (Exn Timeout "timed out")))
    "u" [] sample_payload 5 [3; 4]%Z initial_state
  = for_attempts (sample_world (fun _ => Fails (Exn Timeout "timed out")))
      "u" [] sample_payload 5 [4]%Z
      (log_event
         (EvSleep (inject_Z (2 ^ 3)
                   + jitter_of (sample_world (fun _ => Fails (Exn Timeout "timed out")))
                       initial_state))
         (count_random (log_event (EvPost "u" [] sample_payload)
                          (count_post initial_state)))).
Proof.
  apply (network_failure_backs_off_then_retries
           (sample_world (fun _ => Fails (Exn Timeout "timed out")))
           "u" [] sample_payload 5 3 [4]%Z initial_state (Exn Timeout "timed out")).
  - reflexivity.
  - reflexivity.
  - lia.
  - apply sample_world_random_in_range.
Defined.





(** X5: with a ceiling of zero or less the loop has no iteration: the
    wrapper raises "Max retries reached" without a POST, a sleep or any
    other effect. *)
Theorem no_attempt_when_ceiling_not_positive w url hdrs json mr st :
  (mr <= 0)%Z ->
  make_api_request_with_retry w url hdrs json mr st =
    (Raise (Exn PlainException "Max retries reached"), st).
Proof.
  intros H. unfold make_api_request_with_retry, range.
  by replace (Z.to_nat mr) with 0%nat by lia.
Qed.

Lemma no_attempt_when_ceiling_not_positive_witness :
  make_api_request_with_retry always_429 "u" [] sample_payload 0 initial_state =
    (Raise (Exn PlainException "Max retries reached"), initial_state).
Proof.
  apply (no_attempt_when_ceiling_not_positive always_429 "u" [] sample_payload 0
           initial_state).
  lia.
Defined.

(** One iteration of the loop, case by case: a success, a 429 followed by
    its sleep, a 429 whose sleep is refused, an error on the last attempt,
    an error followed by its sleep, an error whose sleep is refused, an
    exception that escapes. *)
Ltac wrapper_cases :=
  rewrite for_attempts_cons, attempt_body_eq; cbv zeta;
  destruct (classify _) as [?r|?r|?e|?e] eqn:?C;
  [ | destruct (Qle_bool 0 _) eqn:?Hq
    | destruct (_ =? _)%Z eqn:?Hlast; [| destruct (Qle_bool 0 _) eqn:?Hq]
    | ];
  cbv iota beta.

Lemma for_attempts_shape w url hdrs json mr attempts :
  forall st,
    exists evs,
      log (snd (for_attempts w url hdrs json mr attempts st)) = log st ++ evs
      /\ backoff_shape url hdrs json evs.
Proof.
  induction attempts as [|a rest IH]; intros st.
  - exists []. by rewrite app_nil_r.
  - wrapper_cases;
      try (exists [EvPost url hdrs json]; by split);
      match goal with
      | |- context [for_attempts _ _ _ _ _ _ ?st2] =>
          destruct (IH st2) as (evs & Hl & Hs);
          eexists (_ :: _ :: evs); split;
          [ rewrite Hl; cbn [log log_event count_random count_post];
            rewrite <- !app_assoc; reflexivity
          | split; [done|]; split; [by eexists|done] ]
      end.
Qed.

(** X6: whatever the outcome, what a call of the wrapper adds to the log
    is a POST, a sleep, a POST, a sleep and so on: every POST is made with
    the URL, the headers and the payload the caller gave, and two POSTs are
    never made without a sleep between them. *)
Theorem wrapper_alternates_posts_and_sleeps w url hdrs json mr st :
  exists evs,
    log (snd (make_api_request_with_retry w url hdrs json mr st)) = log st ++ evs
    /\ backoff_shape url hdrs json evs.
Proof. apply for_attempts_shape. Qed.

Lemma total_sleep_app evs1 evs2 :
  (total_sleep (evs1 ++ evs2) == total_sleep evs1 + total_sleep evs2)%Q.
Proof.
  induction evs1 as [|[| |] evs1 IH]; cbn [app total_sleep]; rewrite ?IH; lra.
Qed.








(** ** The clean-up of the answer on every input *)

Lemma length_slice_to n s : (String.length (Py.slice_to n s) <= n)%nat.
Proof.
  revert s. induction n as [|n IH]; intros [|c s]; cbn; try lia.
  specialize (IH s). lia.
Qed.

(** Nothing before the first occurrence holds an occurrence. *)
Lemma find_none_before_first s i :
  Py.find s FENCE = Some i -> Py.find (Py.slice_to i s) FENCE = None.
Proof.
  intros H. destruct (Py.find (Py.slice_to i s) FENCE) as [j|] eqn:E; [|done].
  pose proof (find_bound _ _ _ E) as Hb.
  pose proof (length_slice_to i s) as Hl.
  apply (find_app_r _ (Py.slice_from i s)) in E.
  rewrite slice_to_from, H in E. injection E as ->.
  cbn in Hb. lia.
Qed.

Lemma clean_csv_content_no_fence s :
  exists r, clean_csv_content s = Ok r /\ Py.find r FENCE = None.
Proof.
  unfold clean_csv_content, Py.contains. rewrite split_fence.
  destruct (Py.find s FENCE) as [i|] eqn:E; [|by exists s].
  rewrite split_fence.
  set (after := Py.slice_from (i + 3) s).
  assert (exists inner, (match Py.find after FENCE with
                         | Some j => Py.slice_to j after
                                     :: Py.split (Py.slice_from (j + 3) after) FENCE
                         | None => [after]
                         end) !! 0%nat = Some inner
                        /\ Py.find inner FENCE = None) as (inner & Hin & Hnone).
  { destruct (Py.find after FENCE) as [j|] eqn:Ej.
    - exists (Py.slice_to j after). split; [done|]. by apply find_none_before_first.
    - by exists after. }
  match goal with
  | |- context [(?x :: ?l) !! 1%nat] =>
      change ((x :: l) !! 1%nat) with (l !! 0%nat)
  end.
  rewrite Hin. eexists. split; [reflexivity|].
  apply find_none_strip. destruct (Py.startswith inner "csv"); [|done].
  by apply find_none_slice_from.
Qed.

(** X9: the clean-up never fails and never leaves a fence: for every
    answer of the chat model, also one with a single fence or with several
    fenced blocks, the index [1] of the split exists and the text kept
    holds no triple backtick. *)
Theorem cleaned_answer_has_no_fence s :
  exists r, clean_csv_content s = Ok r /\ Py.contains r FENCE = false.
Proof.
  destruct (clean_csv_content_no_fence s) as (r & Hr & Hnone).
  exists r. split; [done|]. unfold Py.contains. by rewrite Hnone.
Qed.

(** X10: cleaning twice is cleaning once: what the clean-up returns is
    left as it is by a second clean-up. *)
Theorem clean_csv_content_idempotent s :
  exists r, clean_csv_content s = Ok r /\ clean_csv_content r = Ok r.
Proof.
  destruct (clean_csv_content_no_fence s) as (r & Hr & Hnone).
  exists r. split; [done|]. unfold clean_csv_content, Py.contains. by rewrite Hnone.
Qed.

Lemma find_fence_after_preamble pre t :
  Py.find (pre +:+ FENCE) FENCE = Some (String.length pre) ->
  Py.find (pre +:+ FENCE +:+ t) FENCE = Some (String.length pre).
Proof.
  intros H. rewrite <- (app_assoc_str pre FENCE t). by apply find_app_r.
Qed.

(** X11: text before the opening fence and text after the closing fence
    are dropped.  For an answer made of a preamble without fence, a fence,
    a body, the closing fence and anything after it, what is kept is the
    body, without a leading [csv] and stripped. *)
Theorem preamble_and_trailer_are_dropped pre body rest :
  Py.find (pre +:+ FENCE) FENCE = Some (String.length pre) ->
  Py.find (body +:+ FENCE) FENCE = Some (String.length body) ->
  clean_csv_content (pre +:+ FENCE +:+ body +:+ FENCE +:+ rest) =
    Ok (Py.strip (if Py.startswith body "csv" then Py.slice_from 3 body else body)).
Proof.
  intros Hpre Hbody. unfold clean_csv_content, Py.contains.
  rewrite find_fence_after_preamble by done.
  rewrite split_fence, find_fence_after_preamble by done.
  rewrite slice_from_app_add.
  change (Py.slice_from 3 (FENCE +:+ body +:+ FENCE +:+ rest))
    with (body +:+ FENCE +:+ rest).
  rewrite split_fence, find_fence_after_preamble by done.
  rewrite !slice_to_app. done.
Qed.

Lemma preamble_and_trailer_are_dropped_witness :
  clean_csv_content
    ("Here is the CSV:" +:+ LF +:+ FENCE +:+ ("csv" +:+ LF +:+ "a,b" +:+ LF) +:+ FENCE
     +:+ (LF +:+ "Anything else?"))
  = Ok (Py.strip (if Py.startswith ("csv" +:+ LF +:+ "a,b" +:+ LF) "csv"
                  then Py.slice_from 3 ("csv" +:+ LF +:+ "a,b" +:+ LF)
                  else "csv" +:+ LF +:+ "a,b" +:+ LF)).
Proof.
  apply (preamble_and_trailer_are_dropped ("Here is the CSV:" +:+ LF)
           ("csv" +:+ LF +:+ "a,b" +:+ LF) (LF +:+ "Anything else?")).
  - reflexivity.
  - reflexivity.
Defined.

(** X12: a fence that is never closed still opens the block: for a
    preamble without fence, one fence and a rest without fence, what is
    kept is that rest, without a leading [csv] and stripped. *)
Theorem unclosed_fence_keeps_the_rest pre body :
  Py.find (pre +:+ FENCE) FENCE = Some (String.length pre) ->
  Py.find body FENCE = None ->
  clean_csv_content (pre +:+ FENCE +:+ body) =
    Ok (Py.strip (if Py.startswith body "csv" then Py.slice_from 3 body else body)).
Proof.
  intros Hpre Hbody. unfold clean_csv_content, Py.contains.
  rewrite find_fence_after_preamble by done.
  rewrite split_fence, find_fence_after_preamble by done.
  rewrite slice_from_app_add.
  change (Py.slice_from 3 (FENCE +:+ body)) with body.
  rewrite split_fence, Hbody. done.
Qed.

Lemma unclosed_fence_keeps_the_rest_witness :
  clean_csv_content ("" +:+ FENCE +:+ ("csv" +:+ LF +:+ "a,b"))
  = Ok (Py.strip (if Py.startswith ("csv" +:+ LF +:+ "a,b") "csv"
                  then Py.slice_from 3 ("csv" +:+ LF +:+ "a,b")
                  else "csv" +:+ LF +:+ "a,b")).
Proof.
  apply (unclosed_fence_keeps_the_rest "" ("csv" +:+ LF +:+ "a,b")).
  - reflexivity.
  - reflexivity.
Defined.

(** ** The stages and the endpoint as a whole *)

Lemma page_texts_stop w done img rest :
  forall st texts st1 e st2,
    page_texts w done st = (Ok texts, st1) ->
    page_text w img st1 = (Raise e, st2) ->
    page_texts w (done ++ img :: rest) st = (Raise e, st2).
Proof.
  induction done as [|d done IH]; intros st texts st1 e st2 Hdone Hfail.
  - injection Hdone as _ <-. cbn [app page_texts]. unfold bind at 1. by rewrite Hfail.
  - cbn [app page_texts] in *. unfold bind at 1 in Hdone. unfold bind at 1.
    destruct (page_text w d st) as [[t|e0] st0]; [|done].
    unfold bind at 1 in Hdone. unfold bind at 1.
    destruct (page_texts w done st0) as [[ts|e0] st0'] eqn:E; [|done].
    injection Hdone as _ <-. by rewrite (IH _ _ _ _ _ E Hfail).
Qed.

(** X13: the vision stage stops at the first page that fails.  When the
    pages before it gave their texts and the request for a page raises,
    the stage raises that exception in the state the failed request left:
    no request is made for the pages after it, and the texts already
    obtained are not returned. *)
Theorem ocr_stops_at_first_failing_page w done img rest st texts st1 e st2 :
  page_texts w done st = (Ok texts, st1) ->
  page_text w img st1 = (Raise e, st2) ->
  ocr_with_openrouter w (done ++ img :: rest) st = (Raise e, st2).
Proof.
  intros Hdone Hfail. rewrite ocr_with_openrouter_spec.
  unfold extracted_text_spec, bind.
  by rewrite (page_texts_stop w done img rest _ _ _ _ _ Hdone Hfail).
Qed.

Lemma ocr_stops_at_first_failing_page_witness :
  ocr_with_openrouter
    (sample_world (fun n => match n with
                            | O => Responds (sample_response 200 ∅ "first")
                            | S _ => Fails (Exn OtherException "boom")
                            end))
    ([Raster 0] ++ Raster 1 :: [Raster 2; Raster 3]) initial_state
  = (Raise (Exn OtherException "boom"),
     snd (page_text
            (sample_world (fun n => match n with
                                    | O => Responds (sample_response 200 ∅ "first")
                                    | S _ => Fails (Exn OtherException "boom")
                                    end))
            (Raster 1)
            (snd (page_texts
                    (sample_world (fun n => match n with
                                            | O => Responds (sample_response 200 ∅ "first")
                                            | S _ => Fails (Exn OtherException "boom")
                                            end))
                    [Raster 0] initial_state)))).
Proof.
  apply (ocr_stops_at_first_failing_page
           (sample_world (fun n => match n with
                                   | O => Responds (sample_response 200 ∅ "first")
                                   | S _ => Fails (Exn OtherException "boom")
                                   end))
           [Raster 0] (Raster 1) [Raster 2; Raster 3] initial_state ["first"]
           (snd (page_texts
                   (sample_world (fun n => match n with
                                           | O => Responds (sample_response 200 ∅ "first")
                                           | S _ => Fails (Exn OtherException "boom")
                                           end))
                   [Raster 0] initial_state))).
  - vm_compute. reflexivity.
  - vm_compute. reflexivity.
Defined.

Lemma adds_only_bind {A B} P (m : M A) (k : A -> M B) :
  adds_only P m -> (forall a, adds_only P (k a)) -> adds_only P (bind m k).
Proof.
  intros Hm Hk st. unfold bind. destruct (Hm st) as (e1 & H1 & F1).
  destruct (m st) as [[a|e] st1]; cbn [snd] in *; [|by exists e1].
  destruct (Hk a st1) as (e2 & H2 & F2). exists (e1 ++ e2). split.
  - by rewrite H2, H1, app_assoc.
  - by apply Forall_app.
Qed.

Lemma adds_only_ret {A} P (a : A) : adds_only P (ret a).
Proof. intros st. exists []. by rewrite app_nil_r. Qed.

Lemma adds_only_lift {A} P (r : result A) : adds_only P (lift r).
Proof. intros st. exists []. by rewrite app_nil_r. Qed.

Lemma adds_only_for_attempts (P : event -> Prop) w url hdrs json mr attempts :
  P (EvPost url hdrs json) ->
  (forall secs, P (EvSleep secs)) ->
  adds_only P (for_attempts w url hdrs json mr attempts).
Proof.
  intros Hpost Hsleep. induction attempts as [|a rest IH]; intros st.
  - exists []. by rewrite app_nil_r.
  - wrapper_cases;
      try (exists [EvPost url hdrs json]; split; [done | by repeat constructor]);
      match goal with
      | |- context [for_attempts _ _ _ _ _ _ ?st2] =>
          destruct (IH st2) as (evs & Hl & Hs);
          eexists (_ :: _ :: evs); split;
          [ rewrite Hl; cbn [log log_event count_random count_post];
            rewrite <- !app_assoc; reflexivity
          | by repeat constructor ]
      end.
Qed.

Lemma adds_only_api_request w json :
  adds_only (api_event w)
    (make_api_request_with_retry w OPENROUTER_API_URL (api_headers w) json
       default_max_retries).
Proof. by apply adds_only_for_attempts. Qed.

Lemma adds_only_ocr_pages w images :
  forall idx all_text,
    adds_only (api_event w) (ocr_pages w (api_headers w) idx images all_text).
Proof.
  induction images as [|img rest IH]; intros idx all_text; cbn [ocr_pages].
  - apply adds_only_ret.
  - apply adds_only_bind; [apply adds_only_api_request|]. intros r.
    apply adds_only_bind; [apply adds_only_lift|]. intros t. apply IH.
Qed.

Lemma adds_only_ocr_with_openrouter w images :
  adds_only (api_event w) (ocr_with_openrouter w images).
Proof.
  apply adds_only_bind; [apply adds_only_ocr_pages|]. intros. apply adds_only_ret.
Qed.

Lemma adds_only_text_to_csv w text : adds_only (api_event w) (text_to_csv w text).
Proof.
  apply adds_only_bind; [apply adds_only_api_request|]. intros r.
  apply adds_only_bind; [apply adds_only_lift|]. intros t. apply adds_only_lift.
Qed.

(** What the endpoint does once intake is passed. *)
Lemma pdf_to_csv_try_accepted w request file :
  files request !! "file" = Some file ->
  filename file <> "" ->
  Py.endswith (Py.lower (filename file)) ".pdf" = true ->
  pdf_to_csv_try w request =
    (let! images := pdf_to_images w (file_bytes file) in
     let! extracted_text := ocr_with_openrouter w images in
     let! csv_content := text_to_csv w extracted_text in
     ret (SendFile (utf8_encode csv_content) "text/csv" true "output.csv")).
Proof.
  intros Hfile Hname Hpdf. unfold pdf_to_csv_try.
  by rewrite Hfile, bool_decide_eq_false_2, Hpdf.
Qed.

Lemma intake_rejects_dec request :
  intake_rejects request
  \/ exists file, files request !! "file" = Some file
                  /\ filename file <> ""
                  /\ Py.endswith (Py.lower (filename file)) ".pdf" = true.
Proof.
  unfold intake_rejects. destruct (files request !! "file") as [file|]; [|by left].
  destruct (decide (filename file = "")) as [?|Hne]; [by left; left|].
  destruct (Py.endswith (Py.lower (filename file)) ".pdf") eqn:E; [|by left; right].
  right. by exists file.
Qed.

Lemma pdf_to_csv_rejected w request st :
  intake_rejects request ->
  exists msg, pdf_to_csv w request st = (Jsonify [("error", msg)] 400, st).
Proof.
  unfold intake_rejects, pdf_to_csv, pdf_to_csv_try.
  destruct (files request !! "file") as [file|]; [|by eexists].
  intros [Hempty | Hsuffix].
  - rewrite bool_decide_eq_true_2 by done. by eexists.
  - destruct (bool_decide (filename file = "")); [by eexists|].
    rewrite Hsuffix. by eexists.
Qed.

(** X14: what a request makes the service do, whatever it is and however
    it ends.  Either nothing at all, or first one rasterisation of the
    bytes uploaded, at 100 dpi, and after it only sleeps and POSTs to the
    API's URL with the API's headers: no POST goes anywhere else, and
    nothing is rasterised twice. *)
Theorem endpoint_effects w request st :
  exists evs,
    log (snd (pdf_to_csv w request st)) = log st ++ evs
    /\ (evs = []
        \/ exists file evs',
             files request !! "file" = Some file
             /\ evs = EvRasterize (file_bytes file) 100 :: evs'
             /\ Forall (api_event w) evs').
Proof.
  destruct (intake_rejects_dec request) as [Hrej | (file & Hfile & Hname & Hpdf)].
  - destruct (pdf_to_csv_rejected w request st Hrej) as [msg ->].
    exists []. split; [by rewrite app_nil_r | by left].
  - unfold pdf_to_csv. rewrite (pdf_to_csv_try_accepted w request file) by done.
    assert (adds_only (api_event w)
              (fun st0 => match convert_from_bytes w (file_bytes file) 100 with
                          | Ok images =>
                              (let! extracted_text := ocr_with_openrouter w images in
                               let! csv_content := text_to_csv w extracted_text in
                               ret (SendFile (utf8_encode csv_content) "text/csv" true
                                      "output.csv")) st0
                          | Raise e => (Raise e, st0)
                          end)) as Hrest.
    { destruct (convert_from_bytes w (file_bytes file) 100) as [images|e].
      - apply adds_only_bind; [apply adds_only_ocr_with_openrouter|]. intros t.
        apply adds_only_bind; [apply adds_only_text_to_csv|]. intros c.
        apply adds_only_ret.
      - intros st0. exists []. by rewrite app_nil_r. }
    destruct (Hrest (log_event (EvRasterize (file_bytes file) 100) st))
      as (evs' & Hl & HF).
    exists (EvRasterize (file_bytes file) 100 :: evs'). split.
    + unfold bind at 1, pdf_to_images.
      destruct (convert_from_bytes w (file_bytes file) 100) as [images|e];
        cbn [fst snd] in *;
        match goal with
        | |- log (snd (let (_, _) := ?x in _)) = _ =>
            destruct x as [[r|e'] st3]; cbn [snd] in *
        | _ => idtac
        end;
        rewrite Hl; cbn [log log_event]; by rewrite <- app_assoc.
    + right. by exists file, evs'.
Qed.

(** X15: the three answers of the endpoint.  The status is 200, 400 or
    500, and it is 400 exactly for the requests intake turns down: no file
    field, an empty filename, or a filename that, lower-cased, does not end
    in [.pdf]. *)
Theorem endpoint_status w request st :
  (response_status (fst (pdf_to_csv w request st)) = 200%Z
   \/ response_status (fst (pdf_to_csv w request st)) = 400%Z
   \/ response_status (fst (pdf_to_csv w request st)) = 500%Z)
  /\ (response_status (fst (pdf_to_csv w request st)) = 400%Z
      <-> intake_rejects request).
Proof.
  destruct (intake_rejects_dec request) as [Hrej | (file & Hfile & Hname & Hpdf)].
  - destruct (pdf_to_csv_rejected w request st Hrej) as [msg ->]. cbn. tauto.
  - destruct (pdf_to_csv_accepted w request file st Hfile Hname Hpdf)
      as (resp & st' & evs & -> & Hs & _).
    cbn [fst]. split; [tauto|]. split.
    + intros H400. destruct Hs as [Hs | Hs]; rewrite Hs in H400; done.
    + unfold intake_rejects. rewrite Hfile. intros [? | Hno]; [done|].
      by rewrite Hpdf in Hno.
Qed.








Lemma posts_between_bind {A B} lo1 hi1 lo2 hi2 (m : M A) (k : A -> M B) :
  posts_between lo1 hi1 m -> (forall a, posts_between lo2 hi2 (k a)) ->
  posts_between (lo1 + lo2) (hi1 + hi2) (bind m k).
Proof.
  intros Hm Hk st. unfold bind. destruct (Hm st) as [H1 H2].
  destruct (m st) as [[a|e] st1]; cbn [fst snd] in *; [|split; [lia|done]].
  destruct (Hk a st1) as [H3 H4]. split; [lia|].
  destruct (fst (k a st1)); [lia|done].
Qed.

Lemma posts_between_weaken {A} lo hi lo' hi' (m : M A) :
  (lo' <= lo)%nat -> (hi <= hi')%nat ->
  posts_between lo hi m -> posts_between lo' hi' m.
Proof.
  intros Hlo Hhi Hm st. destruct (Hm st) as [H1 H2]. split; [lia|].
  destruct (fst (m st)); [lia|done].
Qed.

Lemma posts_between_ret {A} (a : A) : posts_between 0 0 (ret a).
Proof. intros st. cbn. lia. Qed.

Lemma posts_between_lift {A} (r : result A) : posts_between 0 0 (lift r).
Proof. intros st. cbn. split; [lia|]. destruct r; [lia|done]. Qed.

Lemma posts_between_api_request w url hdrs json :
  posts_between 1 5 (make_api_request_with_retry w url hdrs json default_max_retries).
Proof.
  intros st. unfold make_api_request_with_retry.
  destruct (for_attempts_posted w url hdrs json default_max_retries
              (range default_max_retries) st) as (n & Hn & H1 & [Hp _]).
  specialize (H1 ltac:(done)).
  change (length (range default_max_retries)) with 5%nat in Hn. split; [lia|].
  destruct (fst _); [lia|done].
Qed.

Lemma posts_between_ocr_pages w hdrs images :
  forall idx all_text,
    posts_between (length images) (5 * length images)
      (ocr_pages w hdrs idx images all_text).
Proof.
  induction images as [|img rest IH]; intros idx all_text; cbn [ocr_pages].
  - apply posts_between_ret.
  - apply (posts_between_weaken (1 + (0 + length rest)) (5 + (0 + 5 * length rest)));
      [cbn; lia | cbn [length]; lia |].
    apply posts_between_bind; [apply posts_between_api_request|]. intros r.
    apply posts_between_bind; [apply posts_between_lift|]. intros t. apply IH.
Qed.

Lemma posts_between_pipeline w images :
  posts_between (length images + 1) (5 * (length images + 1))
    (let! extracted_text := ocr_with_openrouter w images in
     let! csv_content := text_to_csv w extracted_text in
     ret (SendFile (utf8_encode csv_content) "text/csv" true "output.csv")).
Proof.
  apply (posts_between_weaken (length images + 0 + (1 + (0 + 0) + 0))
           (5 * length images + 0 + (5 + (0 + 0) + 0))); [lia|lia|].
  apply posts_between_bind.
  - apply posts_between_bind; [apply posts_between_ocr_pages|].
    intros. apply posts_between_ret.
  - intros text. apply posts_between_bind; [|intros; apply posts_between_ret].
    apply posts_between_bind; [apply posts_between_api_request|]. intros r.
    apply posts_between_bind; [apply posts_between_lift|]. intros t.
    apply posts_between_lift.
Qed.

(** X18: the outbound calls one request can cost.  For an accepted upload
    that the rasteriser turns into [n] pages, the endpoint makes at most
    [5 * (n + 1)] POSTs however it ends, and at least [n + 1] when it
    answers 200. *)
Theorem pipeline_post_budget w request file images st :
  files request !! "file" = Some file ->
  filename file <> "" ->
  Py.endswith (Py.lower (filename file)) ".pdf" = true ->
  convert_from_bytes w (file_bytes file) 100 = Ok images ->
  (posts_made st <= posts_made (snd (pdf_to_csv w request st))
   <= posts_made st + 5 * (length images + 1))%nat
  /\ (response_status (fst (pdf_to_csv w request st)) = 200%Z ->
      (posts_made st + (length images + 1)
       <= posts_made (snd (pdf_to_csv w request st)))%nat).
Proof.
  intros Hfile Hname Hpdf Hconv.
  pose (m := (let! extracted_text := ocr_with_openrouter w images in
              let! csv_content := text_to_csv w extracted_text in
              ret (SendFile (utf8_encode csv_content) "text/csv" true "output.csv"))
             : M http_response).
  pose (st0 := log_event (EvRasterize (file_bytes file) 100) st).
  assert (Heq : pdf_to_csv w request st
                = match m st0 with
                  | (Ok r, st') => (r, st')
                  | (Raise e, st') => (Jsonify [("error", exn_str e)] 500, st')
                  end).
  { unfold pdf_to_csv. rewrite (pdf_to_csv_try_accepted w request file) by done.
    unfold bind at 1, pdf_to_images. by rewrite Hconv. }
  rewrite Heq.
  pose proof (posts_between_pipeline w images st0) as [H1 H2].
  change (posts_made st0) with (posts_made st) in H1, H2.
  fold m in H1, H2.
  destruct (m st0) as [[r|e] st1]; cbn [fst snd] in *.
  - split; [lia|]. intros _. lia.
  - split; [lia|]. cbn. lia.
Qed.

Lemma pipeline_post_budget_witness :
  (posts_made initial_state
   <= posts_made (snd (pdf_to_csv (always_ok "a,b") (upload "a.pdf" [x25]) initial_state))
   <= posts_made initial_state + 5 * (length [Raster 0; Raster 1] + 1))%nat
  /\ (response_status
        (fst (pdf_to_csv (always_ok "a,b") (upload "a.pdf" [x25]) initial_state))
      = 200%Z ->
      (posts_made initial_state + (length [Raster 0; Raster 1] + 1)
       <= posts_made
            (snd (pdf_to_csv (always_ok "a,b") (upload "a.pdf" [x25]) initial_state)))%nat).
Proof.
  apply (pipeline_post_budget (always_ok "a,b") (upload "a.pdf" [x25])
           {| filename := "a.pdf"; file_bytes := [x25] |} [Raster 0; Raster 1]
           initial_state).
  - vm_compute. reflexivity.
  - discriminate.
  - vm_compute. reflexivity.
  - reflexivity.
Defined.

(** X19: the start-up guard and the requests.  Run as a script, the module
    exits with code 1 when the API key is missing or is the empty string,
    and otherwise starts the server; once it has started, the
    [Authorization] header of every request is "Bearer " followed by that
    key, which is not empty. *)
Theorem main_runs_only_with_a_key w :
  match main w with
  | Exits code _ =>
      code = 1%Z
      /\ (OPENROUTER_API_KEY w = None \/ OPENROUTER_API_KEY w = Some "")
  | Runs _ _ _ =>
      exists key,
        OPENROUTER_API_KEY w = Some key
        /\ String.length key <> 0%nat
        /\ head (api_headers w) = Some ("Authorization", "Bearer " +:+ key)
  end.
Proof.
  unfold main, api_headers.
  destruct (OPENROUTER_API_KEY w) as [[|c key]|]; [tauto| |tauto].
  exists (String c key). by split_and!.
Qed.

(** X20: the ceiling holds for every value of [max_retries], not only the
    default: a call makes at most [max_retries] POSTs (none when the
    ceiling is zero or negative), and the log grows by exactly the POSTs
    counted and the sleeps between them. *)
Theorem wrapper_respects_any_ceiling w url hdrs json mr st :
  exists n,
    (n <= Z.to_nat mr)%nat
    /\ posted n st (snd (make_api_request_with_retry w url hdrs json mr st)).
Proof.
  unfold make_api_request_with_retry.
  destruct (for_attempts_posted w url hdrs json mr (range mr) st) as (n & Hn & _ & Hp).
  exists n. split; [|done]. unfold range in Hn.
  by rewrite length_map, length_seq in Hn.
Qed.

(** X21: a PDF without pages.  When the rasteriser returns no page the
    vision model is never called, and the chat model is still asked to
    convert the empty text: after the rasterisation the service only makes
    POSTs that carry the chat payload of the empty string, with the sleeps
    between them. *)
Theorem zero_pages_still_asks_chat_model w request file st :
  files request !! "file" = Some file ->
  filename file <> "" ->
  Py.endswith (Py.lower (filename file)) ".pdf" = true ->
  convert_from_bytes w (file_bytes file) 100 = Ok [] ->
  exists evs,
    log (snd (pdf_to_csv w request st))
    = log st ++ EvRasterize (file_bytes file) 100 :: evs
    /\ evs <> []
    /\ backoff_shape OPENROUTER_API_URL (api_headers w) (chat_payload w "") evs.
Proof.
  intros Hfile Hname Hpdf Hconv.
  pose (st0 := log_event (EvRasterize (file_bytes file) 100) st).
  pose (call := make_api_request_with_retry w OPENROUTER_API_URL (api_headers w)
                  (chat_payload w "") default_max_retries st0).
  assert (Heq : snd (pdf_to_csv w request st) = snd call).
  { unfold pdf_to_csv. rewrite (pdf_to_csv_try_accepted w request file) by done.
    unfold bind at 1, pdf_to_images. rewrite Hconv.
    assert (Hocr : ocr_with_openrouter w [] st0 = (Ok "", st0)) by reflexivity.
    unfold bind at 1. fold st0. rewrite Hocr.
    unfold bind at 1, text_to_csv, bind at 1. fold call.
    destruct call as [[r|e] st1]; [|done].
    unfold bind at 1, lift. cbn [snd].
    destruct (completion_text r) as [t|e]; [|done].
    unfold bind, lift, ret. by destruct (clean_csv_content t). }
  rewrite Heq. subst call.
  destruct (for_attempts_shape w OPENROUTER_API_URL (api_headers w) (chat_payload w "")
              default_max_retries (range default_max_retries) st0) as (evs & Hl & Hs).
  destruct (for_attempts_posted w OPENROUTER_API_URL (api_headers w) (chat_payload w "")
              default_max_retries (range default_max_retries) st0)
    as (n & _ & Hn & _ & (evs' & Hl' & Hc)).
  specialize (Hn ltac:(done)).
  exists evs. unfold make_api_request_with_retry. split_and!.
  - rewrite Hl. subst st0. cbn [log log_event]. by rewrite <- app_assoc.
  - intros ->. rewrite Hl in Hl'. rewrite app_nil_r in Hl'.
    rewrite <- (app_nil_r (log st0)) in Hl' at 1.
    apply app_inv_head in Hl'. subst evs'. cbn in Hc. lia.
  - done.
Qed.

Lemma zero_pages_still_asks_chat_model_witness :
  exists evs,
    log (snd (pdf_to_csv
                no_pages_world
                (upload "a.pdf" [x25]) initial_state))
    = log initial_state
      ++ EvRasterize (file_bytes {| filename := "a.pdf"; file_bytes := [x25] |}) 100
         :: evs
    /\ evs <> []
    /\ backoff_shape OPENROUTER_API_URL
         (api_headers
            no_pages_world)
         (chat_payload
            no_pages_world "")
         evs.
Proof.
  apply (zero_pages_still_asks_chat_model
           no_pages_world
           (upload "a.pdf" [x25])
           {| filename := "a.pdf"; file_bytes := [x25] |} initial_state).
  - vm_compute. reflexivity.
  - discriminate.
  - vm_compute. reflexivity.
  - reflexivity.
Defined.
